(** * Risk management dashboard: account data client and normalization pipeline

    A shallow embedding of [risk_management_dashboard.py]: the
    [RiskManagementClient] class (gateway initialisation, balance, positions
    and trade-history reads) and the module-level rendering code that turns
    the raw gateway payloads into the balance, positions and trade sections.

    Python values are embedded as [pyval]; dictionaries are finite maps from
    strings; Python floats are IEEE binary64 numbers ([PrimFloat.float]);
    Python integers are [Z].  Exceptions are explicit ([res]); the widgets
    sent to Streamlit, the calls sent to the exchange gateway and the reads
    of the system clock are recorded in an explicit [world]. *)

From Stdlib Require Import ZArith Bool Ascii String PrimFloat SpecFloat FloatOps.
From stdpp Require Import base option list strings gmap sorting.

(** ** Exceptions *)

(** A raised Python exception: its class name and [str(e)]. *)
Record exc := Exc { exc_class : string; exc_msg : string }.

Inductive res (A : Type) : Type :=
| Ok (a : A)
| Raise (e : exc).
Arguments Ok {A} a.
Arguments Raise {A} e.

Definition res_bind {A B} (r : res A) (k : A → res B) : res B :=
  match r with
  | Ok a => k a
  | Raise e => Raise e
  end.

Global Instance res_mret : MRet res := @Ok.
Global Instance res_mbind : MBind res := λ A B k r, res_bind r k.

Definition is_ok {A} (r : res A) : bool :=
  match r with Ok _ => true | Raise _ => false end.

Definition TypeError (msg : string) : exc := Exc "TypeError" msg.
Definition ValueError (msg : string) : exc := Exc "ValueError" msg.
Definition OverflowError (msg : string) : exc := Exc "OverflowError" msg.
Definition ZeroDivisionError (msg : string) : exc := Exc "ZeroDivisionError" msg.
Definition AttributeError (msg : string) : exc := Exc "AttributeError" msg.

(** ** Python values *)

(** The values the dashboard inspects in gateway payloads: [None], booleans,
    integers, floats, strings and (nested) dictionaries with string keys. *)
Inductive pyval : Type :=
| VNone
| VBool (b : bool)
| VInt (z : Z)
| VFloat (f : float)
| VStr (s : string)
| VDict (d : gmap string pyval).

Abbreviation pydict := (gmap string pyval).

(** [d.get(k, default)] *)
Definition dict_get (d : pydict) (k : string) (dflt : pyval) : pyval :=
  default dflt (d !! k).

(** [v.get(k, default)] on an arbitrary value: only dictionaries have [get]. *)
Definition py_get (v : pyval) (k : string) (dflt : pyval) : res pyval :=
  match v with
  | VDict d => Ok (dict_get d k dflt)
  | _ => Raise (AttributeError "object has no attribute 'get'")
  end.

(** ** Binary64 helpers *)

Definition int_of_bool (b : bool) : Z := if b then 1%Z else 0%Z.

(** An integer as an exact (unrounded) binary number. *)
Definition SF_of_Z (z : Z) : spec_float :=
  match z with
  | Z0 => S754_zero false
  | Zpos p => S754_finite false p 0
  | Zneg p => S754_finite true p 0
  end.

Definition SF_is_inf (x : spec_float) : bool :=
  match x with S754_infinity _ => true | _ => false end.

(** A finite binary number [m * 2^e] as the pair [(m, e)], [m] signed. *)
Definition SF_signed (x : spec_float) : Z * Z :=
  match x with
  | S754_finite s m e => (if s then Zneg m else Zpos m, e)
  | _ => (0%Z, 0%Z)
  end.

(** Exact comparison of two binary numbers (mantissas need not be
    normalised); [None] when one of them is a NaN. *)
Definition SF_compare_exact (x y : spec_float) : option comparison :=
  match x, y with
  | S754_nan, _ | _, S754_nan => None
  | S754_infinity s1, S754_infinity s2 =>
      Some (if s1 then (if s2 then Eq else Lt) else (if s2 then Gt else Eq))
  | S754_infinity s, _ => Some (if s then Lt else Gt)
  | _, S754_infinity s => Some (if s then Gt else Lt)
  | _, _ =>
      let '(m1, e1) := SF_signed x in
      let '(m2, e2) := SF_signed y in
      let e := Z.min e1 e2 in
      Some ((m1 * 2 ^ (e1 - e)) ?= (m2 * 2 ^ (e2 - e)))%Z
  end.

Definition SF_eqb_exact (x y : spec_float) : bool :=
  match SF_compare_exact x y with Some Eq => true | _ => false end.

Definition SF_ltb_exact (x y : spec_float) : bool :=
  match SF_compare_exact x y with Some Lt => true | _ => false end.

Definition SF_leb_exact (x y : spec_float) : bool :=
  match SF_compare_exact x y with Some (Lt | Eq) => true | _ => false end.

(** [float(z)] for an integer: round to nearest even, [OverflowError] when
    the integer is beyond the binary64 range. *)
Definition float_of_Z (z : Z) : res float :=
  let x := binary_normalize prec emax z 0 false in
  if SF_is_inf x then Raise (OverflowError "int too large to convert to float")
  else Ok (SF2Prim x).

(** [a / b] for two integers: the correctly rounded quotient. *)
Definition int_truediv (a b : Z) : res float :=
  if (b =? 0)%Z then Raise (ZeroDivisionError "division by zero")
  else
    let x := SFdiv prec emax (SF_of_Z a) (SF_of_Z b) in
    if SF_is_inf x
    then Raise (OverflowError "integer division result too large for a float")
    else Ok (SF2Prim x).

(** [x == 0.0]: true of [0.0] and [-0.0] only. *)
Definition float_is_zero (x : float) : bool :=
  match Prim2SF x with
  | S754_zero _ => true
  | _ => false
  end.

(** [x / y] for two floats. *)
Definition float_truediv (x y : float) : res float :=
  if float_is_zero y then Raise (ZeroDivisionError "float division by zero")
  else Ok (PrimFloat.div x y).

(** [int(x)] for a float: truncation toward zero. *)
Definition int_of_float (x : float) : res Z :=
  match Prim2SF x with
  | S754_zero _ => Ok 0%Z
  | S754_finite s m e =>
      let a := match e with
               | Zneg k => Z.shiftr (Zpos m) (Zpos k)
               | _ => Z.shiftl (Zpos m) e
               end in
      Ok (if s then Z.opp a else a)
  | S754_infinity _ => Raise (OverflowError "cannot convert float infinity to integer")
  | S754_nan => Raise (ValueError "cannot convert float NaN to integer")
  end.

(** ** Truthiness, comparison and arithmetic *)

(** [bool(v)] *)
Definition py_truthy (v : pyval) : bool :=
  match v with
  | VNone => false
  | VBool b => b
  | VInt z => negb (z =? 0)%Z
  | VFloat f => negb (float_is_zero f)
  | VStr s => negb (String.eqb s "")
  | VDict d => negb (bool_decide (d = ∅))
  end.

(** [v == n] for an integer [n]; integers and floats are compared exactly. *)
Definition py_eq_int (v : pyval) (n : Z) : bool :=
  match v with
  | VBool b => (int_of_bool b =? n)%Z
  | VInt z => (z =? n)%Z
  | VFloat f => SF_eqb_exact (Prim2SF f) (SF_of_Z n)
  | VNone | VStr _ | VDict _ => false
  end.

(** [v != n] *)
Definition py_ne_int (v : pyval) (n : Z) : bool := negb (py_eq_int v n).

(** The numeric view of a value, as an exact binary number. *)
Definition py_number (v : pyval) : option spec_float :=
  match v with
  | VBool b => Some (SF_of_Z (int_of_bool b))
  | VInt z => Some (SF_of_Z z)
  | VFloat f => Some (Prim2SF f)
  | VNone | VStr _ | VDict _ => None
  end.

(** [a < b]: numbers compare exactly with each other, strings with each
    other, every other pairing raises [TypeError]. *)
Definition py_lt (a b : pyval) : res bool :=
  match py_number a, py_number b with
  | Some x, Some y => Ok (SF_ltb_exact x y)
  | _, _ =>
      match a, b with
      | VStr s, VStr t => Ok (negb (String.leb t s))
      | _, _ => Raise (TypeError "'<' not supported between these instances")
      end
  end.

(** [a >= b] *)
Definition py_ge (a b : pyval) : res bool :=
  match py_number a, py_number b with
  | Some x, Some y => Ok (SF_leb_exact y x)
  | _, _ =>
      match a, b with
      | VStr s, VStr t => Ok (String.leb t s)
      | _, _ => Raise (TypeError "'>=' not supported between these instances")
      end
  end.

(** [a > b] *)
Definition py_gt (a b : pyval) : res bool := py_lt b a.

(** [float(v)] for a number. *)
Definition float_of_number (v : pyval) : option (res float) :=
  match v with
  | VBool b => Some (float_of_Z (int_of_bool b))
  | VInt z => Some (float_of_Z z)
  | VFloat f => Some (Ok f)
  | VNone | VStr _ | VDict _ => None
  end.

Definition as_int (v : pyval) : option Z :=
  match v with
  | VBool b => Some (int_of_bool b)
  | VInt z => Some z
  | _ => None
  end.

(** A binary arithmetic operator on numbers: integer operands stay integers,
    a float operand converts the other one to float. *)
Definition py_arith (name : string) (iop : Z → Z → Z) (fop : float → float → float)
    (a b : pyval) : res pyval :=
  match as_int a, as_int b with
  | Some x, Some y => Ok (VInt (iop x y))
  | _, _ =>
      match float_of_number a, float_of_number b with
      | Some ra, Some rb =>
          res_bind ra (λ x, res_bind rb (λ y, Ok (VFloat (fop x y))))
      | _, _ => Raise (TypeError ("unsupported operand type(s) for " +:+ name))
      end
  end.

(** [a + b]; strings concatenate. *)
Definition py_add (a b : pyval) : res pyval :=
  match a, b with
  | VStr s, VStr t => Ok (VStr (s +:+ t))
  | _, _ => py_arith "+" Z.add PrimFloat.add a b
  end.

(** [a - b] *)
Definition py_sub (a b : pyval) : res pyval :=
  py_arith "-" Z.sub PrimFloat.sub a b.

(** [a / b]: true division, always a float. *)
Definition py_truediv (a b : pyval) : res float :=
  match as_int a, as_int b with
  | Some x, Some y => int_truediv x y
  | _, _ =>
      match float_of_number a, float_of_number b with
      | Some ra, Some rb => res_bind ra (λ x, res_bind rb (λ y, float_truediv x y))
      | _, _ => Raise (TypeError "unsupported operand type(s) for /")
      end
  end.

(** [sum(vs)]: the items are added to the integer [0] from left to right.
    (CPython 3.12 and later accumulate floats with a compensated algorithm,
    which may differ from the plain left-to-right additions in the last
    bits of the result.) *)
Definition py_sum (vs : list pyval) : res pyval :=
  foldl (λ acc v, res_bind acc (λ a, py_add a v)) (Ok (VInt 0)) vs.

(** ** Strings and number formatting *)

Definition digit_char (d : Z) : ascii := ascii_of_nat (48 + Z.to_nat d).

Fixpoint decimal_go (fuel : nat) (n : Z) (acc : string) : string :=
  match fuel with
  | O => acc
  | S fuel' =>
      let acc' := String (digit_char (n mod 10)) acc in
      if (n <? 10)%Z then acc' else decimal_go fuel' (n / 10) acc'
  end.

(** The decimal digits of a non-negative integer. *)
Definition decimal (n : Z) : string :=
  decimal_go (S (Z.to_nat (Z.log2 n))) n "".

(** [str(z)] for an integer. *)
Definition str_of_Z (z : Z) : string :=
  if (z <? 0)%Z then "-" +:+ decimal (- z) else decimal z.

Fixpoint zeros (n : nat) : string :=
  match n with
  | O => ""
  | S n' => "0" +:+ zeros n'
  end.

Definition zero_pad (width : nat) (s : string) : string :=
  zeros (width - String.length s) +:+ s.

Fixpoint group_rev (cs : list ascii) (k : nat) : list ascii :=
  match cs with
  | [] => []
  | c :: rest =>
      match k with
      | 3%nat => ","%char :: c :: group_rev rest 1
      | _ => c :: group_rev rest (S k)
      end
  end.

(** The [,] format option: a comma between every group of three digits. *)
Definition group_thousands (digits : string) : string :=
  string_of_list_ascii
    (rev (group_rev (rev (list_ascii_of_string digits)) 0)).

Definition round_half_even (num den : Z) : Z :=
  let q := (num / den)%Z in
  let r := (num mod den)%Z in
  match (2 * r ?= den)%Z with
  | Lt => q
  | Gt => (q + 1)%Z
  | Eq => if Z.even q then q else (q + 1)%Z
  end.

(** [|x| * 10^p] rounded to the nearest integer, ties to even, for a finite
    binary number [x = m * 2^e]. *)
Definition scaled_digits (p : nat) (m : positive) (e : Z) : Z :=
  let n := (Zpos m * 10 ^ Z.of_nat p)%Z in
  match e with
  | Zneg k => round_half_even n (2 ^ Zpos k)
  | _ => (n * 2 ^ e)%Z
  end.

Definition render_fixed (grouping : bool) (p : nat) (neg : bool) (n : Z) : string :=
  let scale := (10 ^ Z.of_nat p)%Z in
  let ip := decimal (n / scale) in
  let ip := if grouping then group_thousands ip else ip in
  let body :=
    match p with
    | O => ip
    | _ => ip +:+ "." +:+ zero_pad p (decimal (n mod scale))
    end in
  if neg then "-" +:+ body else body.

(** [format(x, ',.pf')] (with [grouping]) or [format(x, '.pf')] for a float:
    the exact binary value correctly rounded to [p] decimals. *)
Definition format_fixed (grouping : bool) (p : nat) (x : float) : string :=
  match Prim2SF x with
  | S754_nan => "nan"
  | S754_infinity s => if s then "-inf" else "inf"
  | S754_zero s => render_fixed grouping p s 0
  | S754_finite s m e => render_fixed grouping p s (scaled_digits p m e)
  end.

(** [f"{v:,.pf}"] / [f"{v:.pf}"] on an arbitrary value: integers and booleans
    are converted to float first; [None], strings and dictionaries do not
    support the format code. *)
Definition py_format_fixed (grouping : bool) (p : nat) (v : pyval) : res string :=
  match v with
  | VFloat f => Ok (format_fixed grouping p f)
  | VInt z => res_bind (float_of_Z z) (λ f, Ok (format_fixed grouping p f))
  | VBool b => res_bind (float_of_Z (int_of_bool b)) (λ f, Ok (format_fixed grouping p f))
  | VStr _ => Raise (ValueError "Unknown format code 'f' for object of type 'str'")
  | VNone => Raise (TypeError "unsupported format string passed to NoneType.__format__")
  | VDict _ => Raise (TypeError "unsupported format string passed to dict.__format__")
  end.

Definition upper_char (c : ascii) : ascii :=
  let n := nat_of_ascii c in
  if ((97 <=? n) && (n <=? 122))%nat then ascii_of_nat (n - 32) else c.

(** [s.upper()] on ASCII text (the sides are ['buy'], ['sell'], ['long'],
    ['short']). *)
Fixpoint upper (s : string) : string :=
  match s with
  | EmptyString => EmptyString
  | String c s' => String (upper_char c) (upper s')
  end.

(** [v.upper()]: only strings have the method. *)
Definition py_upper (v : pyval) : res string :=
  match v with
  | VStr s => Ok (upper s)
  | _ => Raise (AttributeError "object has no attribute 'upper'")
  end.

(** [s.replace(c, '')] for a one-character [c]. *)
Fixpoint remove_char (c : ascii) (s : string) : string :=
  match s with
  | EmptyString => EmptyString
  | String d s' => if Ascii.eqb c d then remove_char c s' else String d (remove_char c s')
  end.

(** [v == s] for a string [s]. *)
Definition py_eq_str (v : pyval) (s : string) : bool :=
  match v with
  | VStr t => String.eqb t s
  | _ => false
  end.

(** ** The exchange gateway and the host runtime *)

(** The responses of a connected [ccxt.hyperliquid] instance during one
    refresh: what each remote call returns or raises. *)
Record gateway := {
  fetch_balance : res pydict;
  fetch_positions : res (list pydict);
  fetch_my_trades : string → Z → res (list pydict)
}.

(** What the dashboard takes from the Python runtime and from ccxt without
    defining it: the clock and the local calendar, the text forms of floats
    and dictionaries, and the gateway constructor. *)
Record runtime := {
  (** [float(s)] on a string, [None] for [ValueError] *)
  float_of_str : string → option float;
  (** [str(x)] on a float and on a dictionary *)
  repr_float : float → string;
  repr_dict : pydict → string;
  datetime : Type;
  (** the successive readings of [datetime.now()] *)
  clock : nat → datetime;
  (** [d - timedelta(days=n)] *)
  minus_days : datetime → Z → res datetime;
  (** [d.timestamp()] *)
  timestamp : datetime → res float;
  (** [datetime.fromtimestamp(x)] *)
  fromtimestamp : float → res datetime;
  (** [d.strftime('%Y-%m-%d %H:%M:%S')] *)
  strftime : datetime → string;
  (** [ccxt.hyperliquid({"walletAddress": w, "privateKey": k})] *)
  hyperliquid : pyval → pyval → res gateway
}.

(** A remote call issued through the gateway. *)
Inductive call :=
| FetchBalance
| FetchPositions
| FetchMyTrades (symbol : string) (since : Z).

(** A row of the trade table ([trades_data]). *)
Record trade_row := {
  row_Time : string;
  row_Symbol : pyval;
  row_Side : string;
  row_OID : string;
  row_Amount : string;
  row_Price : string;
  row_Cost : string;
  row_Fee : string;
  row_ClosedPnL : string
}.

(** The Streamlit calls of the modelled code, in the order they are made. *)
Inductive widget :=
| StHeader (text : string)
| StError (text : string)
| StWarning (text : string)
| StInfo (text : string)
| StMetric (label : string) (value : pyval)
| StProgress (value : float) (text : string)
| StMarkdown (body : string)
| StDataframe (rows : list trade_row).

Record world := {
  ui : list widget;
  net : list call;
  ticks : nat
}.

Definition world0 : world := {| ui := []; net := []; ticks := 0 |}.

(** ** Effects *)

Definition M (A : Type) : Type := world → res A * world.

Definition ret {A} (a : A) : M A := λ w, (Ok a, w).

Definition bind {A B} (m : M A) (k : A → M B) : M B :=
  λ w, match m w with
       | (Ok a, w') => k a w'
       | (Raise e, w') => (Raise e, w')
       end.

Global Instance M_ret : MRet M := @ret.
Global Instance M_bind : MBind M := λ A B k m, bind m k.

Definition lift {A} (r : res A) : M A := λ w, (r, w).

(** [try: m except Exception as e: h e] *)
Definition try_except {A} (m : M A) (h : exc → M A) : M A :=
  λ w, match m w with
       | (Ok a, w') => (Ok a, w')
       | (Raise e, w') => h e w'
       end.

Definition st (x : widget) : M unit :=
  λ w, (Ok (), {| ui := ui w ++ [x]; net := net w; ticks := ticks w |}).

(** A remote call: it is logged, then returns or raises as the gateway says. *)
Definition remote {A} (c : call) (r : res A) : M A :=
  λ w, (r, {| ui := ui w; net := net w ++ [c]; ticks := ticks w |}).

Definition run {A} (m : M A) (w : world) : res A := fst (m w).
Definition after {A} (m : M A) (w : world) : world := snd (m w).

(** ** RiskManagementClient *)

(** The dictionary built by [get_config]: always the same four keys. *)
Record config := {
  wallet_address : pyval;
  private_key : pyval;
  testnet : pyval;
  trade_history_days : pyval
}.

Record RiskManagementClient := {
  self_config : config;
  self_client : option gateway
}.

(** The five candidate symbols of [get_trade_history]. *)
Definition symbols : list string :=
  ["BTC/USDC:USDC"; "ETH/USDC:USDC"; "SOL/USDC:USDC";
   "XRP/USDC:USDC"; "AVAX/USDC:USDC"].

(** The sort key [lambda x: x.get('timestamp', 0)]. *)
Definition sort_key (x : pydict) : pyval := dict_get x "timestamp" (VInt 0).

(** [list.sort(key=sort_key, reverse=True)]: a stable sort into descending
    key order; a comparison that raises aborts the sort.  It is written as an
    insertion sort: the element goes in front of the first one whose key is
    not greater, hence in front of the later elements of equal key. *)
Fixpoint insert_desc (x : pydict) (l : list pydict) : res (list pydict) :=
  match l with
  | [] => Ok [x]
  | y :: l' =>
      res_bind (py_lt (sort_key x) (sort_key y)) (λ b,
        if b then res_bind (insert_desc x l') (λ l'', Ok (y :: l''))
        else Ok (x :: y :: l'))
  end.

Fixpoint sort_desc (l : list pydict) : res (list pydict) :=
  match l with
  | [] => Ok []
  | x :: l' => res_bind (sort_desc l') (insert_desc x)
  end.

Section Client.
Context (rt : runtime).

(** [datetime.now()] *)
Definition now : M (datetime rt) :=
  λ w, (Ok (clock rt (ticks w)),
        {| ui := ui w; net := net w; ticks := S (ticks w) |}).

Definition _initialize_client (cfg : config) : M (option gateway) :=
  try_except
    (gw ← lift (hyperliquid rt (wallet_address cfg) (private_key cfg));
     ret (Some gw))
    (λ e,
       st (StError ("Error initializing client: " +:+ exc_msg e));;
       ret None).

(** [RiskManagementClient(config)] *)
Definition __init__ (cfg : config) : M RiskManagementClient :=
  c ← _initialize_client cfg;
  ret {| self_config := cfg; self_client := c |}.

Definition get_account_balance (self : RiskManagementClient) : M (option pydict) :=
  match self_client self with
  | None => ret None
  | Some gw =>
      try_except
        (b ← remote FetchBalance (fetch_balance gw); ret (Some b))
        (λ e,
           st (StError ("Error fetching balance: " +:+ exc_msg e));;
           ret None)
  end.

Definition get_open_positions (self : RiskManagementClient) : M (list pydict) :=
  match self_client self with
  | None => ret []
  | Some gw =>
      try_except
        (positions ← remote FetchPositions (fetch_positions gw);
         ret (filter (λ pos, py_ne_int (dict_get pos "contracts" (VInt 0)) 0 = true)
                positions))
        (λ e,
           st (StError ("Error fetching positions: " +:+ exc_msg e));;
           ret [])
  end.

(** [int((datetime.now() - timedelta(days=days)).timestamp() * 1000)] *)
Definition since_cutoff (days : Z) : M Z :=
  t ← now;
  d ← lift (minus_days rt t days);
  s ← lift (timestamp rt d);
  lift (int_of_float (PrimFloat.mul s 1000%float)).

(** The loop over the candidate symbols: a failed fetch is skipped. *)
Fixpoint fetch_symbols (gw : gateway) (since : Z) (syms : list string)
    (all_trades : list pydict) : M (list pydict) :=
  match syms with
  | [] => ret all_trades
  | symbol :: rest =>
      all_trades' ←
        try_except
          (trades ← remote (FetchMyTrades symbol since)
                       (fetch_my_trades gw symbol since);
           ret (all_trades ++ trades))
          (λ _, ret all_trades);
      fetch_symbols gw since rest all_trades'
  end.

Definition get_trade_history (self : RiskManagementClient) (days : Z)
    : M (list pydict) :=
  match self_client self with
  | None => ret []
  | Some gw =>
      try_except
        (since ← since_cutoff days;
         all_trades ← fetch_symbols gw since symbols [];
         lift (sort_desc all_trades))
        (λ e,
           st (StError ("Error fetching trade history: " +:+ exc_msg e));;
           ret [])
  end.
End Client.

(** ** The dashboard script *)

(** [k in d] *)
Definition dict_contains (d : pydict) (k : string) : bool :=
  bool_decide (is_Some (d !! k)).

(** [d[k]] *)
Definition dict_item (d : pydict) (k : string) : res pyval :=
  match d !! k with
  | Some v => Ok v
  | None => Raise (Exc "KeyError" k)
  end.

Fixpoint mapM {A B} (f : A → M B) (l : list A) : M (list B) :=
  match l with
  | [] => ret []
  | a :: l' => b ← f a; bs ← mapM f l'; ret (b :: bs)
  end.

Definition pnl_markup (pnl_color amount : string) : string :=
  "<div class='" +:+ pnl_color +:+ "'>Total Unrealized PnL: $" +:+ amount +:+ "</div>".

(** The two [st.selectbox] filters of the trade table; the selected options
    are inputs of the script. *)
Definition apply_filters (filter_symbol filter_side : string)
    (df_trades : list trade_row) : list trade_row :=
  let filtered_df := df_trades in
  let filtered_df :=
    if negb (String.eqb filter_symbol "All")
    then filter (λ r, py_eq_str (row_Symbol r) filter_symbol = true) filtered_df
    else filtered_df in
  let filtered_df :=
    if negb (String.eqb filter_side "All")
    then filter (λ r, String.eqb (row_Side r) filter_side = true) filtered_df
    else filtered_df in
  filtered_df.

Section Dashboard.
Context (rt : runtime).

(** [float(v)] *)
Definition py_float (v : pyval) : res float :=
  match v with
  | VStr s =>
      match float_of_str rt s with
      | Some f => Ok f
      | None => Raise (ValueError "could not convert string to float")
      end
  | VBool b => float_of_Z (int_of_bool b)
  | VInt z => float_of_Z z
  | VFloat f => Ok f
  | VNone | VDict _ =>
      Raise (TypeError "float() argument must be a string or a real number")
  end.

(** [str(v)] *)
Definition py_str (v : pyval) : string :=
  match v with
  | VNone => "None"
  | VBool b => if b then "True" else "False"
  | VInt z => str_of_Z z
  | VFloat f => repr_float rt f
  | VStr s => s
  | VDict d => repr_dict rt d
  end.

(** *** Account balance (lines 211-235) *)

Definition balance_cards (usdc : pydict) : M unit :=
  let total := dict_get usdc "total" (VInt 0) in
  let free := dict_get usdc "free" (VInt 0) in
  let used := dict_get usdc "used" (VInt 0) in
  s_total ← lift (py_format_fixed true 2 total);
  st (StMetric "Total Balance" (VStr ("$" +:+ s_total)));;
  s_free ← lift (py_format_fixed true 2 free);
  st (StMetric "Free Balance" (VStr ("$" +:+ s_free)));;
  s_used ← lift (py_format_fixed true 2 used);
  st (StMetric "Used Margin" (VStr ("$" +:+ s_used)));;
  positive ← lift (py_gt total (VInt 0));
  if positive : bool then
    ratio ← lift (py_truediv used total);
    let usage_percent := PrimFloat.mul ratio 100%float in
    st (StProgress (PrimFloat.div usage_percent 100%float)
          ("Margin Usage: " +:+ format_fixed false 1 usage_percent +:+ "%"))
  else ret ().

Definition render_balance (balance : option pydict) : M unit :=
  match balance with
  | Some b =>
      if py_truthy (VDict b) && dict_contains b "USDC" then
        usdc ← lift (dict_item b "USDC");
        match usdc with
        | VDict d => balance_cards d
        | _ => ret ()
        end
      else st (StWarning "Unable to fetch account balance")
  | None => st (StWarning "Unable to fetch account balance")
  end.

Definition balance_section (client : RiskManagementClient) : M unit :=
  st (StHeader "💰 Account Balance");;
  balance ← get_account_balance client;
  render_balance balance.

(** *** Open positions: the summary metrics (lines 237-253, 302-303) *)

Definition render_positions_summary (positions : list pydict) : M unit :=
  match positions with
  | _ :: _ =>
      total_unrealized_pnl ←
        lift (py_sum (map (λ pos, dict_get pos "unrealizedPnl" (VInt 0)) positions));
      st (StMetric "Total Positions" (VInt (Z.of_nat (length positions))));;
      nonneg ← lift (py_ge total_unrealized_pnl (VInt 0));
      let pnl_color := if nonneg : bool then "positive-pnl" else "negative-pnl" in
      amount ← lift (py_format_fixed true 2 total_unrealized_pnl);
      st (StMarkdown (pnl_markup pnl_color amount));;
      total_notional ←
        lift (py_sum (map (λ pos, dict_get pos "notional" (VInt 0)) positions));
      s_notional ← lift (py_format_fixed true 2 total_notional);
      st (StMetric "Total Notional" (VStr ("$" +:+ s_notional)))
  | [] => st (StInfo "No open positions")
  end.

Definition positions_section (client : RiskManagementClient) : M unit :=
  st (StHeader "📈 Open Positions");;
  positions ← get_open_positions client;
  render_positions_summary positions.

(** *** Trade history (lines 305-386) *)

(** [fee.get('cost', 0) if isinstance(fee, dict) else 0] *)
Definition fee_cost_of (trade : pydict) : pyval :=
  match dict_get trade "fee" (VDict ∅) with
  | VDict fee => dict_get fee "cost" (VInt 0)
  | _ => VInt 0
  end.

(** Lines 324-329: the closed PnL of a trade. *)
Definition closed_pnl_of (trade : pydict) : res float :=
  info ← py_get (dict_get trade "info" (VDict ∅)) "closedPnl" VNone;
  match info with
  | VNone => Ok 0%float
  | closed_pnl => py_float closed_pnl
  end.

(** Lines 324, 331-335: the order identifier of a trade. *)
Definition order_id_of (trade : pydict) : res string :=
  oid ← py_get (dict_get trade "info" (VDict ∅)) "oid" VNone;
  match oid with
  | VNone => Ok "N/A"
  | order_id => Ok (py_str order_id)
  end.

(** Lines 337-338: the time shown for a trade. *)
Definition trade_dt (trade : pydict) : M (datetime rt) :=
  let timestamp := dict_get trade "timestamp" (VInt 0) in
  if py_truthy timestamp then
    secs ← lift (py_truediv timestamp (VInt 1000));
    lift (fromtimestamp rt secs)
  else now rt.

(** One iteration of the loop of lines 314-350. *)
Definition trade_to_row (trade : pydict) : M trade_row :=
  let symbol := dict_get trade "symbol" (VStr "N/A") in
  let side := dict_get trade "side" (VStr "N/A") in
  let amount := dict_get trade "amount" (VInt 0) in
  let price := dict_get trade "price" (VInt 0) in
  let cost := dict_get trade "cost" (VInt 0) in
  let fee_cost := fee_cost_of trade in
  closed_pnl ← lift (closed_pnl_of trade);
  order_id ← lift (order_id_of trade);
  dt ← trade_dt trade;
  side_up ← lift (py_upper side);
  s_amount ← lift (py_format_fixed false 6 amount);
  s_price ← lift (py_format_fixed true 2 price);
  s_cost ← lift (py_format_fixed true 2 cost);
  s_fee ← lift (py_format_fixed false 4 fee_cost);
  ret {| row_Time := strftime rt dt;
         row_Symbol := symbol;
         row_Side := side_up;
         row_OID := order_id;
         row_Amount := s_amount;
         row_Price := "$" +:+ s_price;
         row_Cost := "$" +:+ s_cost;
         row_Fee := "$" +:+ s_fee;
         row_ClosedPnL := "$" +:+ format_fixed true 2 closed_pnl |}.

(** [float(s.replace('$', '').replace(',', ''))] *)
Definition parse_money (s : string) : res pyval :=
  f ← py_float (VStr (remove_char "," (remove_char "$" s)));
  Ok (VFloat f).

(** [sum(float(...) for s in column)] *)
Definition sum_column (column : list string) : res pyval :=
  foldl (λ acc s, a ← acc; v ← parse_money s; py_add a v) (Ok (VInt 0)) column.

(** The statistics panel (lines 372-384). *)
Definition trade_statistics (filtered_df : list trade_row) : M unit :=
  if (0 <? length filtered_df)%nat then
    total_closed_pnl ← lift (sum_column (map row_ClosedPnL filtered_df));
    total_fees ← lift (sum_column (map row_Fee filtered_df));
    s_closed ← lift (py_format_fixed true 2 total_closed_pnl);
    st (StMetric "Total Closed PnL" (VStr ("$" +:+ s_closed)));;
    s_fees ← lift (py_format_fixed true 4 total_fees);
    st (StMetric "Total Fees" (VStr ("$" +:+ s_fees)));;
    net_pnl ← lift (py_sub total_closed_pnl total_fees);
    s_net ← lift (py_format_fixed true 2 net_pnl);
    st (StMetric "Net PnL" (VStr ("$" +:+ s_net)))
  else ret ().

Definition render_trades (trades : list pydict) (trade_history_days : Z)
    (filter_symbol filter_side : string) : M unit :=
  match trades with
  | _ :: _ =>
      st (StMetric "Total Trades" (VInt (Z.of_nat (length trades))));;
      df_trades ← mapM trade_to_row trades;
      let filtered_df := apply_filters filter_symbol filter_side df_trades in
      st (StDataframe filtered_df);;
      trade_statistics filtered_df
  | [] =>
      st (StInfo ("No trades in the last " +:+ str_of_Z trade_history_days +:+ " days"))
  end.

Definition trades_section (client : RiskManagementClient) (trade_history_days : Z)
    (filter_symbol filter_side : string) : M unit :=
  st (StHeader "📜 Trade History");;
  trades ← get_trade_history rt client trade_history_days;
  render_trades trades trade_history_days filter_symbol filter_side.
End Dashboard.

(** ** A sample host

    A concrete [runtime] on which the script can be run: a UTC clock counted
    in whole seconds, decimal literals for [float(s)], and a gateway
    constructor that rejects a missing wallet address. *)
Module Sample.

Fixpoint digits_value (s : string) (acc : Z) : option Z :=
  match s with
  | EmptyString => Some acc
  | String c s' =>
      let n := Z.of_nat (nat_of_ascii c) in
      if ((48 <=? n) && (n <=? 57))%Z then digits_value s' (acc * 10 + (n - 48))%Z
      else None
  end.

(** Splits at the first ['.']. *)
Fixpoint split_dot (s : string) : string * string :=
  match s with
  | EmptyString => (EmptyString, EmptyString)
  | String c s' =>
      if Ascii.eqb c "." then (EmptyString, s')
      else let '(a, b) := split_dot s' in (String c a, b)
  end.

(** [float(s)] for [s] of the form [-]digits[.digits], [inf], [-inf] or
    [nan]: the decimal value correctly rounded. *)
Definition parse_float (s : string) : option float :=
  if String.eqb s "inf" then Some infinity
  else if String.eqb s "-inf" then Some neg_infinity
  else if String.eqb s "nan" then Some nan
  else
    let '(neg, body) :=
      match s with
      | String "-" s' => (true, s')
      | _ => (false, s)
      end in
    let '(ip, fp) := split_dot body in
    if String.eqb ip "" then None
    else
      n ← digits_value (ip +:+ fp) 0;
      let x := SF2Prim (SFdiv prec emax (SF_of_Z n)
                          (SF_of_Z (10 ^ Z.of_nat (String.length fp)))) in
      Some (if neg : bool then PrimFloat.opp x else x).

(** Civil date of a day number counted from 1970-01-01. *)
Definition civil_from_days (days : Z) : Z * Z * Z :=
  let z := (days + 719468)%Z in
  let era := (z / 146097)%Z in
  let doe := (z mod 146097)%Z in
  let yoe := ((doe - doe / 1460 + doe / 36524 - doe / 146096) / 365)%Z in
  let doy := (doe - (365 * yoe + yoe / 4 - yoe / 100))%Z in
  let mp := ((5 * doy + 2) / 153)%Z in
  let d := (doy - (153 * mp + 2) / 5 + 1)%Z in
  let m := (if (mp <? 10)%Z then mp + 3 else mp - 9)%Z in
  let y := (yoe + era * 400 + (if (m <=? 2)%Z then 1 else 0))%Z in
  (y, m, d).

Definition two (n : Z) : string := zero_pad 2 (decimal n).

Definition format_time (secs : Z) : string :=
  let '(y, m, d) := civil_from_days (secs / 86400) in
  let r := (secs mod 86400)%Z in
  zero_pad 4 (decimal y) +:+ "-" +:+ two m +:+ "-" +:+ two d +:+ " " +:+
  two (r / 3600) +:+ ":" +:+ two ((r mod 3600) / 60) +:+ ":" +:+ two (r mod 60).

(** A gateway holding one long position, one flat position and two fills. *)
Definition btc_long : pydict :=
  {[ "symbol" := VStr "BTC/USDC:USDC"; "side" := VStr "long";
     "contracts" := VFloat 0.5; "unrealizedPnl" := VFloat 12.5;
     "notional" := VFloat 30000 ]}.

Definition eth_flat : pydict :=
  {[ "symbol" := VStr "ETH/USDC:USDC"; "contracts" := VFloat 0 ]}.

Definition btc_buy : pydict :=
  {[ "symbol" := VStr "BTC/USDC:USDC"; "side" := VStr "buy";
     "timestamp" := VInt 1762100000000;
     "amount" := VFloat 0.5; "price" := VFloat 60000; "cost" := VFloat 30000;
     "fee" := VDict {[ "cost" := VFloat 10.5 ]};
     "info" := VDict {[ "closedPnl" := VStr "0.0"; "oid" := VInt 4711 ]} ]}.

Definition eth_sell : pydict :=
  {[ "symbol" := VStr "ETH/USDC:USDC"; "side" := VStr "sell";
     "amount" := VFloat 2; "price" := VFloat 2500; "cost" := VFloat 5000;
     "fee" := VDict {[ "cost" := VFloat 1.75 ]};
     "info" := VDict {[ "closedPnl" := VStr "125.5" ]} ]}.

Definition gw : gateway :=
  {| fetch_balance :=
       Ok {[ "USDC" := VDict {[ "total" := VFloat 1000; "free" := VFloat 600;
                                "used" := VFloat 400 ]} ]};
     fetch_positions := Ok [btc_long; eth_flat];
     fetch_my_trades symbol since :=
       if String.eqb symbol "BTC/USDC:USDC" then Ok [btc_buy]
       else if String.eqb symbol "ETH/USDC:USDC" then Ok [eth_sell]
       else Raise (Exc "BadSymbol" symbol) |}.

(** A gateway whose only position is flat. *)
Definition gw_flat : gateway :=
  {| fetch_balance := fetch_balance gw;
     fetch_positions := Ok [eth_flat];
     fetch_my_trades := fetch_my_trades gw |}.

Definition host : runtime :=
  {| float_of_str := parse_float;
     repr_float := format_fixed false 6;
     repr_dict := λ _, "{...}";
     datetime := Z;
     clock := λ k, (1762190000 + Z.of_nat k)%Z;
     minus_days := λ d n, Ok (d - 86400 * n)%Z;
     timestamp := float_of_Z;
     fromtimestamp := int_of_float;
     strftime := format_time;
     hyperliquid := λ wallet key,
       match wallet with
       | VNone => Raise (Exc "ArgumentsRequired" "walletAddress is required")
       | _ => Ok gw
       end |}.

Definition cfg : config :=
  {| wallet_address := VStr "0x1234567890abcdef"; private_key := VStr "secret";
     testnet := VBool false; trade_history_days := VInt 2 |}.

Definition cfg_no_wallet : config :=
  {| wallet_address := VNone; private_key := VStr "secret";
     testnet := VBool false; trade_history_days := VInt 2 |}.

Definition connected : RiskManagementClient :=
  {| self_config := cfg; self_client := Some gw |}.

Definition connected_flat : RiskManagementClient :=
  {| self_config := cfg; self_client := Some gw_flat |}.

(** The table rows of the two fills, as the script builds them after the
    clock was read once for the cutoff. *)
Definition rows : list trade_row :=
  [ {| row_Time := "2025-11-02 16:13:20"; row_Symbol := VStr "BTC/USDC:USDC";
       row_Side := "BUY"; row_OID := "4711"; row_Amount := "0.500000";
       row_Price := "$60,000.00"; row_Cost := "$30,000.00";
       row_Fee := "$10.5000"; row_ClosedPnL := "$0.00" |};
    {| row_Time := "2025-11-03 17:13:21"; row_Symbol := VStr "ETH/USDC:USDC";
       row_Side := "SELL"; row_OID := "N/A"; row_Amount := "2.000000";
       row_Price := "$2,500.00"; row_Cost := "$5,000.00";
       row_Fee := "$1.7500"; row_ClosedPnL := "$125.50" |} ].
End Sample.

(** ** Vocabulary of the statements *)

(** The number zero: the integer [0], [False], and the floats [0.0] and
    [-0.0]. *)
Definition py_zero (v : pyval) : Prop :=
  match v with
  | VInt z => z = 0%Z
  | VBool b => b = false
  | VFloat f => match Prim2SF f with S754_zero _ => True | _ => False end
  | VNone | VStr _ | VDict _ => False
  end.

(** The size of a raw position is zero: the ['contracts'] field is missing
    or holds a zero. *)
Definition zero_size (pos : pydict) : Prop :=
  match pos !! "contracts" with
  | None => True
  | Some v => py_zero v
  end.

Global Instance py_zero_dec v : Decision (py_zero v).
Proof.
  destruct v as [| b | z | f | s | d]; simpl; try apply _.
  destruct (Prim2SF f); apply _.
Defined.

Global Instance zero_size_dec pos : Decision (zero_size pos).
Proof. unfold zero_size. destruct (pos !! "contracts"); apply _. Defined.

(** The open positions of a raw position list. *)
Definition open_positions (raw : list pydict) : list pydict :=
  filter (λ pos, ¬ zero_size pos) raw.

(** The timestamp of a trade is an integer (epoch milliseconds) when the
    field is present. *)
Definition int_timestamp (x : pydict) : Prop :=
  match x !! "timestamp" with
  | None => True
  | Some v => ∃ z, v = VInt z
  end.

(** The integer a trade is ordered by. *)
Definition trade_ts (x : pydict) : Z :=
  match x !! "timestamp" with
  | Some (VInt z) => z
  | _ => 0%Z
  end.

Definition newest_first (a b : pydict) : Prop := (trade_ts b ≤ trade_ts a)%Z.

(** A trade without a usable timestamp: the field is missing or zero. *)
Definition no_timestamp (x : pydict) : Prop :=
  x !! "timestamp" = None ∨ x !! "timestamp" = Some (VInt 0).

(** What the per-symbol fetches deliver, in fetch order: the failed fetches
    contribute nothing. *)
Definition fetched (gw : gateway) (since : Z) (syms : list string) : list pydict :=
  concat (map (λ symbol,
                 match fetch_my_trades gw symbol since with
                 | Ok trades => trades
                 | Raise _ => []
                 end) syms).

(** A field holding a float when it is present. *)
Definition float_field (k : string) (d : pydict) : Prop :=
  match d !! k with
  | None => True
  | Some v => ∃ f, v = VFloat f
  end.

(** A strictly positive float. *)
Definition float_pos (x : float) : Prop :=
  match Prim2SF x with
  | S754_finite false _ _ | S754_infinity false => True
  | _ => False
  end.

Global Instance float_pos_dec x : Decision (float_pos x).
Proof. unfold float_pos. destruct (Prim2SF x) as [[]| []| |[] ? ?]; apply _. Defined.

(** The cutoff computed from one clock reading [t]:
    [int((t - timedelta(days=days)).timestamp() * 1000)]. *)
Definition cutoff_of (rt : runtime) (t : datetime rt) (days : Z) : res Z :=
  d ← minus_days rt t days;
  s ← timestamp rt d;
  int_of_float (PrimFloat.mul s 1000%float).

(** The three read operations of the client, and what each returns when
    nothing is available. *)
Inductive op :=
| OpBalance
| OpPositions
| OpTrades (days : Z).

Inductive op_result :=
| RBalance (balance : option pydict)
| RPositions (positions : list pydict)
| RTrades (trades : list pydict).

Definition run_op (rt : runtime) (self : RiskManagementClient) (o : op) : M op_result :=
  match o with
  | OpBalance => b ← get_account_balance self; ret (RBalance b)
  | OpPositions => l ← get_open_positions self; ret (RPositions l)
  | OpTrades days => l ← get_trade_history rt self days; ret (RTrades l)
  end.

Definition absent_result (o : op) : op_result :=
  match o with
  | OpBalance => RBalance None
  | OpPositions => RPositions []
  | OpTrades _ => RTrades []
  end.

Definition show (x : widget) (w : world) : world :=
  {| ui := ui w ++ [x]; net := net w; ticks := ticks w |}.

(** The world after the cutoff was computed and the five fetches were made. *)
Definition fetched_world (since : Z) (w : world) : world :=
  {| ui := ui w;
     net := net w ++ map (λ symbol, FetchMyTrades symbol since) symbols;
     ticks := S (ticks w) |}.

(** The widgets a computation adds to the page when started in [w]. *)
Definition shown {A} (m : M A) (w : world) : list widget :=
  drop (length (ui w)) (ui (after m w)).

(** An amount as a position field holds it: a float, or the integer [0]
    that stands for a missing field. *)
Definition amount_like (v : pyval) : Prop := v = VInt 0 ∨ ∃ f, v = VFloat f.

Definition unrealized_pnls (positions : list pydict) : list pyval :=
  map (λ pos, dict_get pos "unrealizedPnl" (VInt 0)) positions.

(** The positions summary shows the sum of the [unrealizedPnl] fields as
    "Total Unrealized PnL". *)
Definition shows_unrealized_total (positions : list pydict) (w : world) : Prop :=
  ∃ total amount pnl_color,
    py_sum (unrealized_pnls positions) = Ok total ∧
    py_format_fixed true 2 total = Ok amount ∧
    StMarkdown (pnl_markup pnl_color amount)
      ∈ shown (render_positions_summary positions) w.

(** The closed PnL and fee values the rows of the trade table display. *)
Definition row_values (rt : runtime) (rows : list trade_row) (cs fs : list float) : Prop :=
  Forall2 (λ r c, parse_money rt (row_ClosedPnL r) = Ok (VFloat c)) rows cs ∧
  Forall2 (λ r f, parse_money rt (row_Fee r) = Ok (VFloat f)) rows fs.

(** The statistics panel shows, as "Net PnL", the total closed PnL of the
    rows minus their total fees. *)
Definition shows_net_pnl (rt : runtime) (rows : list trade_row) (w : world) : Prop :=
  ∃ cs fs total_closed total_fees net amount,
    row_values rt rows cs fs ∧
    py_sum (VFloat <$> cs) = Ok total_closed ∧
    py_sum (VFloat <$> fs) = Ok total_fees ∧
    py_sub total_closed total_fees = Ok net ∧
    py_format_fixed true 2 net = Ok amount ∧
    StMetric "Net PnL" (VStr ("$" +:+ amount)) ∈ shown (trade_statistics rt rows) w.

(** The money columns of a row are texts that [float] accepts. *)
Definition row_parses (rt : runtime) (r : trade_row) : Prop :=
  is_ok (parse_money rt (row_ClosedPnL r)) = true ∧
  is_ok (parse_money rt (row_Fee r)) = true.

(** ** Configuration (lines 22-63) *)

Definition lower_char (c : ascii) : ascii :=
  let n := nat_of_ascii c in
  if ((65 <=? n) && (n <=? 90))%nat then ascii_of_nat (n + 32) else c.

(** [s.lower()] on ASCII text. *)
Fixpoint lower (s : string) : string :=
  match s with
  | EmptyString => EmptyString
  | String c s' => String (lower_char c) (lower s')
  end.

(** What [st.secrets["risk_management"]] does: it returns the section, or
    raises [KeyError] or [AttributeError] (or a subclass of these), or raises
    any other exception. *)
Inductive secrets_lookup :=
| SecretsFound (section : pyval)
| SecretsMissing
| SecretsError (e : exc).

(** The process environment [get_config] reads. *)
Record environment := {
  secrets : secrets_lookup;
  (** [os.getenv(name)] *)
  getenv : string → option string;
  (** [int(s)] on a string *)
  int_of_str : string → res Z
}.

Definition nl : string := String (ascii_of_nat 10) EmptyString.
Definition dq : string := String (ascii_of_nat 34) EmptyString.

(** The text of the [st.error] call of lines 40-53. *)
Definition config_error_text : string :=
  nl +:+
  "            ⚠️ **Configuration Error**" +:+
  nl +:+
  "            " +:+
  nl +:+
  "            Please set up your secrets in one of the following ways:" +:+
  nl +:+
  "            " +:+
  nl +:+
  "            **For Local Development:**" +:+
  nl +:+
  "            1. Create a `.streamlit/secrets.toml` file" +:+
  nl +:+
  "            2. Add your configuration (see `secrets.toml.example`)" +:+
  nl +:+
  "            " +:+
  nl +:+
  "            **For Streamlit Cloud:**" +:+
  nl +:+
  "            1. Go to your app settings" +:+
  nl +:+
  "            2. Click " +:+
  dq +:+
  "Secrets" +:+
  dq +:+
  " in the sidebar" +:+
  nl +:+
  "            3. Add the secrets in TOML format" +:+
  nl +:+
  "            ".

(** [st.stop()] ends the script run by raising. *)
Definition StopException : exc := Exc "StopException" "".

(** [bool(s)] for the result of [os.getenv]. *)
Definition env_truthy (s : option string) : bool :=
  match s with
  | None => false
  | Some s => negb (String.eqb s "")
  end.

Definition env_value (s : option string) : pyval :=
  match s with
  | None => VNone
  | Some s => VStr s
  end.

(** The [except (KeyError, AttributeError)] branch (lines 33-61). *)
Definition config_from_env (env : environment) : M config :=
  let wallet := getenv env "WALLET_ADDRESS" in
  let key := getenv env "PRIVATE_KEY" in
  (if negb (env_truthy wallet) || negb (env_truthy key)
   then st (StError config_error_text);; lift (Raise StopException)
   else ret ());;
  let is_testnet :=
    String.eqb (lower (default "False" (getenv env "TESTNET"))) "true" in
  days ← lift (int_of_str env (default "2" (getenv env "TRADE_HISTORY_DAYS")));
  ret {| wallet_address := env_value wallet;
         private_key := env_value key;
         testnet := VBool is_testnet;
         trade_history_days := VInt days |}.

(** [get_config()]: a section that is not a mapping has no [get], which
    raises the [AttributeError] the handler catches. *)
Definition get_config (env : environment) : M config :=
  match secrets env with
  | SecretsFound (VDict d) =>
      ret {| wallet_address := dict_get d "wallet_address" VNone;
             private_key := dict_get d "private_key" VNone;
             testnet := dict_get d "testnet" (VBool false);
             trade_history_days := dict_get d "trade_history_days" (VInt 2) |}
  | SecretsFound _ => config_from_env env
  | SecretsMissing => config_from_env env
  | SecretsError e => lift (Raise e)
  end.

(** ** The positions table (lines 255-276) *)

(** [abs(v)] *)
Definition py_abs (v : pyval) : res pyval :=
  match v with
  | VInt z => Ok (VInt (Z.abs z))
  | VBool b => Ok (VInt (int_of_bool b))
  | VFloat f => Ok (VFloat (PrimFloat.abs f))
  | VNone | VStr _ | VDict _ => Raise (TypeError "bad operand type for abs()")
  end.

(** A row of the positions table ([positions_data]). *)
Record position_row := {
  pos_Symbol : pyval;
  pos_Side : string;
  pos_Size : string;
  pos_EntryPrice : string;
  pos_MarkPrice : string;
  pos_Notional : string;
  pos_UnrealizedPnL : string;
  pos_PnLPct : string
}.

(** One iteration of the loop of lines 257-276. *)
Definition position_to_row (pos : pydict) : res position_row :=
  let symbol := dict_get pos "symbol" (VStr "N/A") in
  let contracts := dict_get pos "contracts" (VInt 0) in
  let side := dict_get pos "side" (VStr "N/A") in
  let entry_price := dict_get pos "entryPrice" (VInt 0) in
  let mark_price := dict_get pos "markPrice" (VInt 0) in
  let notional := dict_get pos "notional" (VInt 0) in
  let unrealized_pnl := dict_get pos "unrealizedPnl" (VInt 0) in
  let percentage := dict_get pos "percentage" (VInt 0) in
  side_up ← py_upper side;
  size ← py_abs contracts;
  s_size ← py_format_fixed false 6 size;
  s_entry ← py_format_fixed true 2 entry_price;
  s_mark ← py_format_fixed true 2 mark_price;
  s_notional ← py_format_fixed true 2 notional;
  s_pnl ← py_format_fixed true 2 unrealized_pnl;
  s_pct ← py_format_fixed false 2 percentage;
  Ok {| pos_Symbol := symbol;
        pos_Side := side_up;
        pos_Size := s_size;
        pos_EntryPrice := "$" +:+ s_entry;
        pos_MarkPrice := "$" +:+ s_mark;
        pos_Notional := "$" +:+ s_notional;
        pos_UnrealizedPnL := "$" +:+ s_pnl;
        pos_PnLPct := s_pct +:+ "%" |}.

Fixpoint positions_data (positions : list pydict) : res (list position_row) :=
  match positions with
  | [] => Ok []
  | pos :: rest =>
      row ← position_to_row pos;
      rows ← positions_data rest;
      Ok (row :: rows)
  end.


(** ** Further sample data *)
Module Cases.

(** A gateway whose every call raises. *)
Definition gw_down : gateway :=
  {| fetch_balance := Raise (Exc "NetworkError" "timeout");
     fetch_positions := Raise (Exc "NetworkError" "timeout");
     fetch_my_trades := λ _ _, Raise (Exc "NetworkError" "timeout") |}.

Definition down : RiskManagementClient :=
  {| self_config := Sample.cfg; self_client := Some gw_down |}.

(** A fill whose timestamp is [None]. *)
Definition btc_untimed : pydict :=
  {[ "symbol" := VStr "BTC/USDC:USDC"; "side" := VStr "buy";
     "timestamp" := VNone;
     "amount" := VFloat 0.5; "price" := VFloat 60000; "cost" := VFloat 30000 ]}.

Definition gw_untimed : gateway :=
  {| fetch_balance := fetch_balance Sample.gw;
     fetch_positions := fetch_positions Sample.gw;
     fetch_my_trades symbol since :=
       if String.eqb symbol "BTC/USDC:USDC" then Ok [btc_untimed]
       else if String.eqb symbol "ETH/USDC:USDC" then Ok [Sample.eth_sell]
       else Raise (Exc "BadSymbol" symbol) |}.

Definition untimed : RiskManagementClient :=
  {| self_config := Sample.cfg; self_client := Some gw_untimed |}.

(** A host on which the date arithmetic of the cutoff overflows. *)
Definition host_overflow : runtime :=
  {| float_of_str := float_of_str Sample.host;
     repr_float := repr_float Sample.host;
     repr_dict := repr_dict Sample.host;
     datetime := Z;
     clock := λ k, (1762190000 + Z.of_nat k)%Z;
     minus_days := λ _ _, Raise (OverflowError "date value out of range");
     timestamp := float_of_Z;
     fromtimestamp := int_of_float;
     strftime := Sample.format_time;
     hyperliquid := λ _ _, Ok Sample.gw |}.

(** A position whose size is unknown ([None]). *)
Definition sol_unknown : pydict :=
  {[ "symbol" := VStr "SOL/USDC:USDC"; "side" := VStr "long";
     "contracts" := VNone ]}.

(** A fill without a side. *)
Definition sol_sideless : pydict :=
  {[ "symbol" := VStr "SOL/USDC:USDC"; "side" := VNone;
     "timestamp" := VInt 1762100000000 ]}.

(** A fill without fee information. *)
Definition sol_feeless : pydict :=
  {[ "symbol" := VStr "SOL/USDC:USDC"; "side" := VStr "sell";
     "timestamp" := VInt 1762100000000;
     "amount" := VFloat 3; "price" := VFloat 150; "cost" := VFloat 450 ]}.

(** Environments for [get_config]. *)
Definition int_of_digits (s : string) : res Z :=
  match Sample.digits_value s 0 with
  | Some n => if String.eqb s "" then Raise (ValueError "invalid literal for int()")
              else Ok n
  | None => Raise (ValueError "invalid literal for int()")
  end.

Definition env_secrets : environment :=
  {| secrets := SecretsFound (VDict {[ "private_key" := VStr "secret";
                                       "testnet" := VBool true ]});
     getenv := λ _, None;
     int_of_str := int_of_digits |}.

Definition env_vars : environment :=
  {| secrets := SecretsMissing;
     getenv := λ name,
       if String.eqb name "WALLET_ADDRESS" then Some "0x1234567890abcdef"
       else if String.eqb name "PRIVATE_KEY" then Some "secret"
       else if String.eqb name "TESTNET" then Some "TRUE"
       else None;
     int_of_str := int_of_digits |}.

Definition env_empty : environment :=
  {| secrets := SecretsMissing;
     getenv := λ name, if String.eqb name "WALLET_ADDRESS" then Some "" else None;
     int_of_str := int_of_digits |}.

End Cases.

(** A row passes the two filters: each filter is "All" or equals the
    row's value. *)
Definition row_selected (filter_symbol filter_side : string) (r : trade_row) : Prop :=
  (filter_symbol = "All" ∨ row_Symbol r = VStr filter_symbol) ∧
  (filter_side = "All" ∨ row_Side r = filter_side).

Global Instance row_selected_dec filter_symbol filter_side r :
  Decision (row_selected filter_symbol filter_side r).
Proof.
  unfold row_selected.
  assert (Decision (row_Symbol r = VStr filter_symbol)) as Hsym.
  { destruct (row_Symbol r) as [| | | |s|];
      try (right; discriminate).
    destruct (decide (s = filter_symbol)) as [->|Hne]; [by left|].
    right. intros [= ->]. done. }
  apply _.
Defined.

(** A value that is not a string. *)
Definition not_str (v : pyval) : Prop :=
  match v with
  | VStr _ => False
  | _ => True
  end.

(** The fee of a trade is missing or malformed: no ['fee'], a ['fee'] that
    is not a dictionary, or a fee dictionary without ['cost']. *)
Definition fee_unusable (trade : pydict) : Prop :=
  match trade !! "fee" with
  | None => True
  | Some (VDict fee) => fee !! "cost" = None
  | Some _ => True
  end.

(** A metric card or the usage bar. *)
Definition card_or_bar (x : widget) : Prop :=
  match x with
  | StMetric _ _ | StProgress _ _ => True
  | _ => False
  end.

(** What a row of the trade table shows of the trade it was built from. *)
Definition row_of_trade (rt : runtime) (trade : pydict) (r : trade_row) : Prop :=
  row_Symbol r = dict_get trade "symbol" (VStr "N/A") ∧
  py_upper (dict_get trade "side" (VStr "N/A")) = Ok (row_Side r) ∧
  order_id_of rt trade = Ok (row_OID r) ∧
  (∃ pnl, closed_pnl_of rt trade = Ok pnl ∧
          row_ClosedPnL r = "$" +:+ format_fixed true 2 pnl) ∧
  (∃ s, py_format_fixed false 4 (fee_cost_of trade) = Ok s ∧ row_Fee r = "$" +:+ s) ∧
  py_format_fixed false 6 (dict_get trade "amount" (VInt 0)) = Ok (row_Amount r).

(** What a row of the positions table shows of its position. *)
Definition row_of_position (pos : pydict) (r : position_row) : Prop :=
  pos_Symbol r = dict_get pos "symbol" (VStr "N/A") ∧
  py_upper (dict_get pos "side" (VStr "N/A")) = Ok (pos_Side r) ∧
  ∃ size, py_abs (dict_get pos "contracts" (VInt 0)) = Ok size ∧
          py_format_fixed false 6 size = Ok (pos_Size r).

(** * Proofs *)

(** ** Effects *)

Ltac unfold_M :=
  unfold mbind, mret, M_bind, M_ret, res_mbind, res_mret, bind, ret, lift,
    try_except, st, remote, run, after in *.

Lemma bind_ok {A B} (m : M A) (k : A → M B) w a w' :
  m w = (Ok a, w') → (m ≫= k) w = k a w'.
Proof. intros H. unfold_M. by rewrite H. Qed.

Lemma world_eta w : {| ui := ui w; net := net w; ticks := ticks w |} = w.
Proof. by destruct w. Qed.

(** ** Numbers *)

Lemma SF_compare_exact_Z a b :
  SF_compare_exact (SF_of_Z a) (SF_of_Z b) = Some (a ?= b)%Z.
Proof.
  destruct a, b; unfold SF_compare_exact; simpl; try reflexivity;
    by rewrite ?Pos.mul_1_r.
Qed.

Lemma py_lt_int a b : py_lt (VInt a) (VInt b) = Ok (a <? b)%Z.
Proof.
  unfold py_lt; simpl. unfold SF_ltb_exact. rewrite SF_compare_exact_Z.
  unfold Z.ltb. by destruct (a ?= b)%Z.
Qed.

Lemma py_eq_int_zero v : py_eq_int v 0 = true ↔ py_zero v.
Proof.
  destruct v as [| b | z | f | s | d]; simpl; try (split; [discriminate | tauto]).
  - destruct b; simpl; split; (discriminate || done).
  - by rewrite Z.eqb_eq.
  - unfold SF_eqb_exact, SF_compare_exact.
    destruct (Prim2SF f) as [s | s | | s m e]; simpl.
    + done.
    + destruct s; split; (discriminate || tauto).
    + split; (discriminate || tauto).
    + rewrite Z.mul_0_l.
      assert (0 < 2 ^ (e - Z.min e 0))%Z by (apply Z.pow_pos_nonneg; lia).
      assert (((if s then Z.neg m else Z.pos m) * 2 ^ (e - Z.min e 0) ?= 0)%Z ≠ Eq)
        as Hne by (rewrite Z.compare_eq_iff; destruct s; nia).
      destruct ((if s then Z.neg m else Z.pos m) * 2 ^ (e - Z.min e 0) ?= 0)%Z;
        [congruence | split; (discriminate || tauto) ..].
Qed.

Lemma dict_get_contracts_zero pos :
  py_ne_int (dict_get pos "contracts" (VInt 0)) 0 = true ↔ ¬ zero_size pos.
Proof.
  unfold py_ne_int, zero_size, dict_get.
  destruct (pos !! "contracts") as [v|]; simpl.
  - rewrite negb_true_iff, <- not_true_iff_false. by rewrite py_eq_int_zero.
  - split; [discriminate | tauto].
Qed.

(** ** Open positions *)

(** C1: when the gateway returns the raw position list [raw],
    [get_open_positions] returns, without raising and without showing an
    error, exactly the entries of [raw] whose size is not zero, in their
    original order: an entry whose ['contracts'] field is zero or missing is
    excluded, every other entry is included. *)
Theorem get_open_positions_nonzero (cfg : config) (gw : gateway)
    (raw : list pydict) (w : world) :
  fetch_positions gw = Ok raw →
  let self := {| self_config := cfg; self_client := Some gw |} in
  run (get_open_positions self) w = Ok (open_positions raw) ∧
  ui (after (get_open_positions self) w) = ui w ∧
  open_positions raw `sublist_of` raw ∧
  (∀ pos, pos ∈ raw → zero_size pos → pos ∉ open_positions raw) ∧
  (∀ pos, pos ∈ raw → ¬ zero_size pos → pos ∈ open_positions raw).
Proof.
  intros Hraw self. unfold get_open_positions; simpl.
  unfold_M; simpl. rewrite Hraw; simpl. repeat split.
  - f_equal. apply list_filter_iff. intros pos. apply dict_get_contracts_zero.
  - apply sublist_filter.
  - intros pos _ Hz Hin. apply list_elem_of_filter in Hin. tauto.
  - intros pos Hin Hnz. apply list_elem_of_filter. tauto.
Qed.

Lemma get_open_positions_nonzero_witness :
  run (get_open_positions Sample.connected) world0
  = Ok (open_positions [Sample.btc_long; Sample.eth_flat]).
Proof.
  exact (proj1 (get_open_positions_nonzero Sample.cfg Sample.gw _ world0 eq_refl)).
Defined.

Example open_positions_sample :
  open_positions [Sample.btc_long; Sample.eth_flat] = [Sample.btc_long].
Proof. vm_compute. reflexivity. Qed.

(** ** Gateway initialisation failure *)

Lemma mapM_const {A B} (f : A → M B) (g : A → B) (l : list A) :
  (∀ a w, f a w = (Ok (g a), w)) → ∀ w, mapM f l w = (Ok (map g l), w).
Proof.
  intros Hf. induction l as [|a l IH]; intros w; simpl; [done|].
  rewrite (bind_ok _ _ _ _ _ (Hf a w)). rewrite (bind_ok _ _ _ _ _ (IH w)). done.
Qed.

(** C3: when the gateway constructor raises, [RiskManagementClient(config)]
    still returns a client, with an error shown and no gateway; from then on,
    in whichever state of the world and for any sequence of operations,
    [get_account_balance] returns [None] and [get_open_positions] and
    [get_trade_history] return the empty list without raising, without any
    remote call and without any widget, and the balance section shows the
    warning "Unable to fetch account balance". *)
Theorem init_failure_unavailable (rt : runtime) (cfg : config) (e : exc) (w : world) :
  hyperliquid rt (wallet_address cfg) (private_key cfg) = Raise e →
  ∃ self,
    __init__ rt cfg w
      = (Ok self, show (StError ("Error initializing client: " +:+ exc_msg e)) w) ∧
    self_client self = None ∧
    (∀ w', get_account_balance self w' = (Ok None, w')) ∧
    (∀ w', get_open_positions self w' = (Ok [], w')) ∧
    (∀ days w', get_trade_history rt self days w' = (Ok [], w')) ∧
    (∀ ops w', mapM (run_op rt self) ops w' = (Ok (map absent_result ops), w')) ∧
    (∀ w', balance_section self w'
           = (Ok (), show (StWarning "Unable to fetch account balance")
                       (show (StHeader "💰 Account Balance") w'))).
Proof.
  intros Hfail. exists {| self_config := cfg; self_client := None |}.
  split; [|split; [done|]].
  { unfold __init__, _initialize_client. unfold_M. by rewrite Hfail. }
  assert (∀ w', get_account_balance {| self_config := cfg; self_client := None |} w'
                = (Ok None, w')) as Hb by done.
  assert (∀ w', get_open_positions {| self_config := cfg; self_client := None |} w'
                = (Ok [], w')) as Hp by done.
  assert (∀ days w',
            get_trade_history rt {| self_config := cfg; self_client := None |} days w'
            = (Ok [], w')) as Ht by done.
  repeat split; try done.
  - intros ops w'. apply mapM_const. intros [| |days] w1; simpl.
    + by rewrite (bind_ok _ _ _ _ _ (Hb w1)).
    + by rewrite (bind_ok _ _ _ _ _ (Hp w1)).
    + by rewrite (bind_ok _ _ _ _ _ (Ht days w1)).
Qed.

Lemma init_failure_unavailable_witness :
  ∃ self,
    __init__ Sample.host Sample.cfg_no_wallet world0
      = (Ok self,
         show (StError "Error initializing client: walletAddress is required") world0) ∧
    self_client self = None.
Proof.
  destruct (init_failure_unavailable Sample.host Sample.cfg_no_wallet
              (Exc "ArgumentsRequired" "walletAddress is required") world0 eq_refl)
    as (self & H1 & H2 & _).
  exists self. split; [exact H1 | exact H2].
Defined.

(** ** Trade history: the fetch loop and the cutoff *)

Lemma since_cutoff_run (rt : runtime) (days : Z) (w : world) :
  since_cutoff rt days w
  = (cutoff_of rt (clock rt (ticks w)) days,
     {| ui := ui w; net := net w; ticks := S (ticks w) |}).
Proof.
  unfold since_cutoff, cutoff_of, now. unfold_M. simpl.
  destruct (minus_days rt (clock rt (ticks w)) days) as [d|e]; simpl; [|done].
  destruct (timestamp rt d) as [s|e]; simpl; done.
Qed.

Lemma fetch_symbols_run (gw : gateway) (since : Z) (syms : list string) :
  ∀ (acc : list pydict) (w : world),
    fetch_symbols gw since syms acc w
    = (Ok (acc ++ fetched gw since syms),
       {| ui := ui w;
          net := net w ++ map (λ symbol, FetchMyTrades symbol since) syms;
          ticks := ticks w |}).
Proof.
  induction syms as [|symbol syms IH]; intros acc w.
  - simpl. unfold fetched; simpl. rewrite !app_nil_r. unfold_M. by rewrite world_eta.
  - simpl. unfold_M. simpl.
    destruct (fetch_my_trades gw symbol since) as [trades|e] eqn:E; simpl;
      rewrite IH; simpl; unfold fetched; simpl; rewrite E; simpl;
      by rewrite <- ?app_assoc.
Qed.

Lemma get_trade_history_run (rt : runtime) (cfg : config) (gw : gateway)
    (days since : Z) (w : world) :
  cutoff_of rt (clock rt (ticks w)) days = Ok since →
  get_trade_history rt {| self_config := cfg; self_client := Some gw |} days w
  = match sort_desc (fetched gw since symbols) with
    | Ok trades => (Ok trades, fetched_world since w)
    | Raise e =>
        (Ok [], show (StError ("Error fetching trade history: " +:+ exc_msg e))
                  (fetched_world since w))
    end.
Proof.
  intros Hcut. unfold get_trade_history; simpl.
  unfold try_except. rewrite (bind_ok _ _ _ _ _ (eq_trans (since_cutoff_run rt days w)
                                                  (f_equal (λ r, (r, _)) Hcut))).
  rewrite (bind_ok _ _ _ _ _ (fetch_symbols_run gw since symbols [] _)).
  unfold lift; simpl. unfold fetched_world.
  destruct (sort_desc (fetched gw since symbols)); done.
Qed.

(** ** Trade history: the sort *)

Lemma sort_key_int (x : pydict) : int_timestamp x → sort_key x = VInt (trade_ts x).
Proof.
  unfold int_timestamp, sort_key, trade_ts, dict_get.
  destruct (x !! "timestamp") as [v|]; simpl; [|done]. by intros [z ->].
Qed.

Lemma insert_desc_ok (x : pydict) (l : list pydict) :
  int_timestamp x → Forall int_timestamp l →
  ∃ l',
    insert_desc x l = Ok l' ∧
    l' ≡ₚ x :: l ∧
    (StronglySorted newest_first l → StronglySorted newest_first l') ∧
    (∀ k, filter (λ y, trade_ts y = k) l' = filter (λ y, trade_ts y = k) (x :: l)).
Proof.
  intros Hx. induction l as [|y l IH]; intros Hl.
  - exists [x]. repeat split; auto. intros _. repeat constructor.
  - apply Forall_cons in Hl as [Hy Hl]. destruct (IH Hl) as (l'' & E & Hp & Hs & Hf).
    simpl. rewrite (sort_key_int x Hx), (sort_key_int y Hy), py_lt_int. simpl.
    destruct (Z.ltb_spec (trade_ts x) (trade_ts y)) as [Hlt|Hge].
    + rewrite E; simpl. exists (y :: l''). repeat split.
      * rewrite Hp. apply perm_swap.
      * intros Hsorted. apply StronglySorted_inv in Hsorted as [Hsl Hall].
        constructor; [by apply Hs|]. rewrite Hp. constructor; [|done].
        unfold newest_first. lia.
      * intros k. rewrite (filter_cons _ y l''), Hf.
        rewrite (filter_cons _ x (y :: l)), (filter_cons _ y l), (filter_cons _ x l).
        repeat case_decide; (done || lia).
    + exists (x :: y :: l). repeat split; auto.
      intros Hsorted. constructor; [done|].
      apply StronglySorted_inv in Hsorted as [Hsl Hall].
      constructor; [unfold newest_first; lia|].
      eapply Forall_impl; [exact Hall|]. unfold newest_first. intros; simpl in *; lia.
Qed.

Lemma sort_desc_ok (l : list pydict) :
  Forall int_timestamp l →
  ∃ l',
    sort_desc l = Ok l' ∧
    l' ≡ₚ l ∧
    StronglySorted newest_first l' ∧
    (∀ k, filter (λ y, trade_ts y = k) l' = filter (λ y, trade_ts y = k) l).
Proof.
  induction l as [|x l IH]; intros Hl.
  - exists []. repeat split; auto. constructor.
  - apply Forall_cons in Hl as [Hx Hl]. destruct (IH Hl) as (s & E & Hp & Hs & Hf).
    assert (Forall int_timestamp s) as Hsi by (by rewrite Hp).
    destruct (insert_desc_ok x s Hx Hsi) as (l' & E' & Hp' & Hs' & Hf').
    exists l'. simpl. rewrite E; simpl. repeat split; auto.
    + by rewrite Hp', Hp.
    + intros k. rewrite Hf'. rewrite (filter_cons _ x s), (filter_cons _ x l), Hf. done.
Qed.

(** C2: when every fetched trade carries an integer timestamp (or none),
    [get_trade_history] returns the concatenation of the per-symbol results
    (failed fetches contributing nothing) rearranged into descending
    timestamp order, and the trades of equal timestamp keep the relative
    order they had in the concatenation. *)
Theorem get_trade_history_sorted (rt : runtime) (cfg : config) (gw : gateway)
    (days since : Z) (w : world) :
  cutoff_of rt (clock rt (ticks w)) days = Ok since →
  Forall int_timestamp (fetched gw since symbols) →
  ∃ trades,
    run (get_trade_history rt {| self_config := cfg; self_client := Some gw |} days) w
      = Ok trades ∧
    ui (after (get_trade_history rt {| self_config := cfg; self_client := Some gw |} days) w)
      = ui w ∧
    trades ≡ₚ fetched gw since symbols ∧
    StronglySorted newest_first trades ∧
    (∀ k, filter (λ y, trade_ts y = k) trades
          = filter (λ y, trade_ts y = k) (fetched gw since symbols)).
Proof.
  intros Hcut Hint. destruct (sort_desc_ok _ Hint) as (trades & E & Hp & Hs & Hf).
  exists trades. unfold run, after.
  rewrite (get_trade_history_run rt cfg gw days since w Hcut), E. simpl. auto.
Qed.

Lemma get_trade_history_sorted_witness :
  ∃ trades,
    run (get_trade_history Sample.host Sample.connected 2) world0 = Ok trades ∧
    trades ≡ₚ [Sample.btc_buy; Sample.eth_sell] ∧
    StronglySorted newest_first trades.
Proof.
  destruct (get_trade_history_sorted Sample.host Sample.cfg Sample.gw 2
              1762017200000 world0)
    as (trades & H1 & _ & H2 & H3 & _).
  - vm_compute. reflexivity.
  - repeat constructor; vm_compute; eauto.
  - exists trades. repeat split; assumption.
Defined.

(** C6: for every lookback [days] (in particular 1 to 7), [get_trade_history]
    reads the clock once, computes one cutoff [since], the truncation of the
    epoch timestamp of (now - [days] days) times 1000, and issues exactly five
    fetches, one per candidate symbol in list order, each with that same
    [since]. *)
Theorem cutoff_shared_by_all_symbols (rt : runtime) (cfg : config) (gw : gateway)
    (days since : Z) (d : datetime rt) (s : float) (w : world) :
  minus_days rt (clock rt (ticks w)) days = Ok d →
  timestamp rt d = Ok s →
  int_of_float (PrimFloat.mul s 1000%float) = Ok since →
  let self := {| self_config := cfg; self_client := Some gw |} in
  run (since_cutoff rt days) w = Ok since ∧
  net (after (get_trade_history rt self days) w)
    = net w ++ [FetchMyTrades "BTC/USDC:USDC" since;
                FetchMyTrades "ETH/USDC:USDC" since;
                FetchMyTrades "SOL/USDC:USDC" since;
                FetchMyTrades "XRP/USDC:USDC" since;
                FetchMyTrades "AVAX/USDC:USDC" since] ∧
  ticks (after (get_trade_history rt self days) w) = S (ticks w).
Proof.
  intros Hd Hs Hi self.
  assert (cutoff_of rt (clock rt (ticks w)) days = Ok since) as Hcut.
  { unfold cutoff_of. rewrite Hd; simpl. rewrite Hs; simpl. exact Hi. }
  split.
  { unfold run. by rewrite since_cutoff_run. }
  unfold after, self. rewrite (get_trade_history_run rt cfg gw days since w Hcut).
  destruct (sort_desc (fetched gw since symbols)); simpl; done.
Qed.

Lemma cutoff_shared_by_all_symbols_witness :
  run (since_cutoff Sample.host 2) world0 = Ok 1762017200000%Z ∧
  net (after (get_trade_history Sample.host Sample.connected 2) world0)
    = map (λ symbol, FetchMyTrades symbol 1762017200000) symbols.
Proof.
  destruct (cutoff_shared_by_all_symbols Sample.host Sample.cfg Sample.gw 2
              1762017200000 (1762190000 - 86400 * 2)%Z 1762017200%float world0)
    as (H1 & H2 & _); try (vm_compute; reflexivity).
  split; [exact H1 | exact H2].
Defined.


Lemma trade_dt_no_timestamp (rt : runtime) (a : pydict) :
  no_timestamp a → sort_key a = VInt 0 ∧ trade_dt rt a = now rt.
Proof.
  unfold no_timestamp, sort_key, trade_dt, dict_get. intros [-> | ->]; simpl; done.
Qed.



(** ** Account balance *)






(** ** Trade rows *)

Lemma trade_to_row_inv (rt : runtime) (trade : pydict) (w w' : world) (row : trade_row) :
  trade_to_row rt trade w = (Ok row, w') →
  ∃ closed_pnl order_id dt,
    closed_pnl_of rt trade = Ok closed_pnl ∧
    order_id_of rt trade = Ok order_id ∧
    trade_dt rt trade w = (Ok dt, w') ∧
    row_Time row = strftime rt dt ∧
    row_OID row = order_id ∧
    row_ClosedPnL row = "$" +:+ format_fixed true 2 closed_pnl.
Proof.
  unfold trade_to_row. unfold_M. intros H.
  destruct (closed_pnl_of rt trade) as [closed_pnl|]; [|done].
  destruct (order_id_of rt trade) as [order_id|]; [|done].
  destruct (trade_dt rt trade w) as [[dt|] w1]; [|done].
  destruct (py_upper _); [|done].
  repeat match type of H with
         | context [py_format_fixed ?g ?p ?v] => destruct (py_format_fixed g p v); [|done]
         end.
  injection H as <- <-. exists closed_pnl, order_id, dt. done.
Qed.

(** C8: for a trade whose ['info'] is a dictionary (or is missing, which
    counts as the empty dictionary): when ['closedPnl'] is absent the
    normalized closed PnL is the float 0.0, not an error, and the row shows
    "$0.00"; when ['oid'] is absent the order identifier is the text 'N/A';
    when present (and not [None]) they are [float(closedPnl)], that is the
    number itself or the number a string denotes, and [str(oid)]. *)
Theorem closed_pnl_and_order_id_defaults (rt : runtime) (trade info : pydict) :
  dict_get trade "info" (VDict ∅) = VDict info →
  (info !! "closedPnl" = None → closed_pnl_of rt trade = Ok 0%float) ∧
  (∀ v, info !! "closedPnl" = Some v → v ≠ VNone →
        closed_pnl_of rt trade = py_float rt v) ∧
  (∀ x, py_float rt (VFloat x) = Ok x) ∧
  (∀ s x, float_of_str rt s = Some x → py_float rt (VStr s) = Ok x) ∧
  (info !! "oid" = None → order_id_of rt trade = Ok "N/A") ∧
  (∀ v, info !! "oid" = Some v → v ≠ VNone →
        order_id_of rt trade = Ok (py_str rt v)) ∧
  (∀ z, py_str rt (VInt z) = str_of_Z z) ∧
  (∀ s, py_str rt (VStr s) = s) ∧
  (∀ w w' row,
     trade_to_row rt trade w = (Ok row, w') →
     (info !! "closedPnl" = None → row_ClosedPnL row = "$0.00") ∧
     (info !! "oid" = None → row_OID row = "N/A") ∧
     (∀ v, info !! "oid" = Some v → v ≠ VNone → row_OID row = py_str rt v)).
Proof.
  intros Hinfo.
  assert (info !! "closedPnl" = None → closed_pnl_of rt trade = Ok 0%float) as Hc0.
  { intros Hc. unfold closed_pnl_of. rewrite Hinfo. simpl.
    unfold dict_get. by rewrite Hc. }
  assert (info !! "oid" = None → order_id_of rt trade = Ok "N/A") as Ho0.
  { intros Ho. unfold order_id_of. rewrite Hinfo. simpl.
    unfold dict_get. by rewrite Ho. }
  assert (∀ v, info !! "oid" = Some v → v ≠ VNone →
               order_id_of rt trade = Ok (py_str rt v)) as Ho1.
  { intros v Ho Hv. unfold order_id_of. rewrite Hinfo. simpl.
    unfold dict_get. rewrite Ho. simpl. by destruct v. }
  repeat split; try done.
  - intros v Hc Hv. unfold closed_pnl_of. rewrite Hinfo. simpl.
    unfold dict_get. rewrite Hc. simpl. by destruct v.
  - intros s x Hs. simpl. by rewrite Hs.
  - intros Hc. apply trade_to_row_inv in H as (c & o & dt & Ec & _ & _ & _ & _ & Er).
    rewrite (Hc0 Hc) in Ec. injection Ec as <-. by rewrite Er.
  - intros Ho. apply trade_to_row_inv in H as (c & o & dt & _ & Eo & _ & _ & Er & _).
    rewrite (Ho0 Ho) in Eo. injection Eo as <-. by rewrite Er.
  - intros v Ho Hv. apply trade_to_row_inv in H as (c & o & dt & _ & Eo & _ & _ & Er & _).
    rewrite (Ho1 v Ho Hv) in Eo. injection Eo as <-. by rewrite Er.
Qed.

Lemma closed_pnl_and_order_id_defaults_witness :
  closed_pnl_of Sample.host Sample.eth_sell = Ok 125.5%float ∧
  order_id_of Sample.host Sample.eth_sell = Ok "N/A" ∧
  order_id_of Sample.host Sample.btc_buy = Ok "4711".
Proof.
  destruct (closed_pnl_and_order_id_defaults Sample.host Sample.eth_sell
              {[ "closedPnl" := VStr "125.5" ]} eq_refl)
    as (_ & Hc & _ & _ & Ho & _).
  destruct (closed_pnl_and_order_id_defaults Sample.host Sample.btc_buy
              {[ "closedPnl" := VStr "0.0"; "oid" := VInt 4711 ]} eq_refl)
    as (_ & _ & _ & _ & _ & Ho' & _).
  split; [|split].
  - rewrite (Hc (VStr "125.5") eq_refl); [vm_compute; reflexivity | discriminate].
  - exact (Ho eq_refl).
  - rewrite (Ho' (VInt 4711) eq_refl); [reflexivity | discriminate].
Defined.

(** C9: the time shown for a trade.  When the timestamp is missing or zero
    it is the current clock reading; when it is a nonzero integer [z] (epoch
    milliseconds) it is [datetime.fromtimestamp(z / 1000)], the local
    wall-clock time of that instant; the row shows it through [strftime]. *)
Theorem trade_time_display (rt : runtime) (trade : pydict) (w : world) :
  (no_timestamp trade →
   trade_dt rt trade w
   = (Ok (clock rt (ticks w)),
      {| ui := ui w; net := net w; ticks := S (ticks w) |})) ∧
  (∀ z, trade !! "timestamp" = Some (VInt z) → z ≠ 0%Z →
        trade_dt rt trade w = (int_truediv z 1000 ≫= fromtimestamp rt, w)) ∧
  (∀ w' row,
     trade_to_row rt trade w = (Ok row, w') →
     ∃ dt, run (trade_dt rt trade) w = Ok dt ∧ row_Time row = strftime rt dt).
Proof.
  split; [|split].
  - intros Hno. destruct (trade_dt_no_timestamp rt trade Hno) as [_ ->]. done.
  - intros z Hz Hnz. unfold trade_dt, dict_get. rewrite Hz. simpl.
    rewrite (proj2 (Z.eqb_neq z 0) Hnz). simpl.
    unfold py_truediv; simpl. unfold_M.
    destruct (int_truediv z 1000); done.
  - intros w' row H.
    apply trade_to_row_inv in H as (c & o & dt & _ & _ & Edt & Et & _).
    exists dt. unfold run. by rewrite Edt.
Qed.

Lemma trade_time_display_witness :
  run (trade_dt Sample.host Sample.eth_sell) world0 = Ok 1762190000%Z ∧
  run (trade_dt Sample.host Sample.btc_buy) world0 = Ok 1762100000%Z.
Proof.
  destruct (trade_time_display Sample.host Sample.eth_sell world0) as (H0 & _).
  destruct (trade_time_display Sample.host Sample.btc_buy world0) as (_ & H1 & _).
  split.
  - unfold run. rewrite (H0 (or_introl eq_refl)). reflexivity.
  - assert (Sample.btc_buy !! "timestamp" = Some (VInt 1762100000000)) as Hts
      by (vm_compute; reflexivity).
    unfold run. rewrite (H1 1762100000000%Z Hts); [vm_compute; reflexivity | lia].
Defined.

(** ** Sums of amounts *)

Lemma shown_app {A} (m : M A) (w : world) (new : list widget) :
  ui (after m w) = ui w ++ new → shown m w = new.
Proof. intros H. unfold shown. rewrite H. apply drop_app_length. Qed.

Lemma py_add_amount (a v : pyval) :
  amount_like a → amount_like v → ∃ r, py_add a v = Ok r ∧ amount_like r.
Proof.
  intros [-> | [x ->]] [-> | [y ->]]; simpl.
  - exists (VInt 0). split; [done | by left].
  - eexists. split; [reflexivity | right; eauto].
  - eexists. split; [reflexivity | right; eauto].
  - eexists. split; [reflexivity | right; eauto].
Qed.

Lemma py_sum_amounts (vs : list pyval) :
  Forall amount_like vs → ∃ t, py_sum vs = Ok t ∧ amount_like t.
Proof.
  unfold py_sum. assert (amount_like (VInt 0)) as H0 by (by left).
  revert H0. generalize (VInt 0) as acc.
  induction vs as [|v vs IH]; intros acc Hacc Hvs; simpl.
  - eauto.
  - apply Forall_cons in Hvs as [Hv Hvs].
    destruct (py_add_amount acc v Hacc Hv) as (r & -> & Hr). by apply IH.
Qed.

Lemma amount_like_field (k : string) (d : pydict) :
  float_field k d → amount_like (dict_get d k (VInt 0)).
Proof.
  unfold float_field, dict_get. destruct (d !! k) as [v|]; simpl.
  - intros [f ->]. right. eauto.
  - by left.
Qed.

Lemma amount_like_ge (t : pyval) : amount_like t → ∃ b, py_ge t (VInt 0) = Ok b.
Proof. intros [-> | [f ->]]; simpl; eauto. Qed.

Lemma amount_like_format (t : pyval) :
  amount_like t → ∃ s, py_format_fixed true 2 t = Ok s.
Proof. intros [-> | [f ->]]; simpl; eauto. Qed.

(** ** Open positions: the summary *)

(** C5 (as the code has it): for every non-empty sequence of positions
    whose [unrealizedPnl] fields are floats (or missing, counted as 0), the
    summary shows the number of positions and then, as "Total Unrealized
    PnL", the sum of the [unrealizedPnl] fields of all positions, printed
    with two decimals; for the empty sequence no total is shown, only the
    notice "No open positions". *)
Theorem unrealized_pnl_total (positions : list pydict) (w : world) :
  (positions ≠ [] →
   Forall (float_field "unrealizedPnl") positions →
   shows_unrealized_total positions w ∧
   ∃ total, py_sum (unrealized_pnls positions) = Ok total ∧ amount_like total) ∧
  render_positions_summary [] w = (Ok (), show (StInfo "No open positions") w).
Proof.
  split; [|done]. intros Hne Hfields.
  assert (Forall amount_like (unrealized_pnls positions)) as Ham.
  { unfold unrealized_pnls. apply Forall_map.
    eapply Forall_impl; [exact Hfields|]. intros pos. apply amount_like_field. }
  destruct (py_sum_amounts _ Ham) as (total & Hsum & Htotal).
  destruct (amount_like_ge _ Htotal) as (b & Hge).
  destruct (amount_like_format _ Htotal) as (amount & Hfmt).
  split; [|eauto].
  exists total, amount, (if b then "positive-pnl" else "negative-pnl").
  split; [done|]. split; [done|].
  assert (∃ rest,
            ui (after (render_positions_summary positions) w)
            = ui w ++ [StMetric "Total Positions" (VInt (Z.of_nat (length positions)));
                       StMarkdown (pnl_markup (if b then "positive-pnl" else "negative-pnl")
                                     amount)] ++ rest) as [rest Hui].
  { destruct positions as [|pos positions]; [done|].
    unfold render_positions_summary. fold (unrealized_pnls (pos :: positions)).
    unfold_M. rewrite Hsum. simpl. rewrite Hge. simpl. rewrite Hfmt. simpl.
    match goal with
    | |- context [match ?r with Ok _ => _ | Raise _ => _ end] =>
        destruct r as [total_notional|]
    end; simpl.
    - destruct (py_format_fixed true 2 total_notional) as [s_notional|]; simpl.
      + exists [StMetric "Total Notional" (VStr ("$" +:+ s_notional))].
        by rewrite <- !app_assoc.
      + exists []. by rewrite <- !app_assoc.
    - exists []. by rewrite <- !app_assoc. }
  rewrite (shown_app _ _ _ Hui). set_solver.
Qed.

Lemma unrealized_pnl_total_witness :
  shows_unrealized_total [Sample.btc_long] world0.
Proof.
  refine (proj1 (proj1 (unrealized_pnl_total [Sample.btc_long] world0) _ _)).
  - discriminate.
  - repeat constructor. vm_compute. eauto.
Defined.

(** C5 as stated fails on the empty sequence: nothing is shown as total
    (the claim has it equal to 0); a gateway whose only position is flat
    leads there. *)
Lemma unrealized_pnl_empty_counterexample :
  ¬ shows_unrealized_total [] world0 ∧
  run (get_open_positions Sample.connected_flat) world0 = Ok [] ∧
  shown (positions_section Sample.connected_flat) world0
  = [StHeader "📈 Open Positions"; StInfo "No open positions"].
Proof.
  split; [|split; vm_compute; reflexivity].
  intros (total & amount & pnl_color & _ & _ & Hin).
  vm_compute in Hin. apply list_elem_of_In in Hin. simpl in Hin.
  destruct Hin as [Hin|[]]. discriminate Hin.
Qed.

(** ** Trade statistics *)

Lemma parse_money_float (rt : runtime) (s : string) (v : pyval) :
  parse_money rt s = Ok v → ∃ f, v = VFloat f.
Proof.
  unfold parse_money. unfold_M.
  destruct (py_float rt _) as [f|]; simpl; [|done]. intros [= <-]. eauto.
Qed.

Lemma row_values_exist (rt : runtime) (rows : list trade_row) :
  Forall (row_parses rt) rows → ∃ cs fs, row_values rt rows cs fs.
Proof.
  unfold row_values. induction 1 as [|r rows [Hc Hf] _ (cs & fs & IHc & IHf)].
  - exists [], []. split; constructor.
  - destruct (parse_money rt (row_ClosedPnL r)) as [vc|] eqn:Ec; [|done].
    destruct (parse_money rt (row_Fee r)) as [vf|] eqn:Ef; [|done].
    destruct (parse_money_float _ _ _ Ec) as [c ->].
    destruct (parse_money_float _ _ _ Ef) as [f ->].
    exists (c :: cs), (f :: fs). split; by constructor.
Qed.

Lemma sum_column_parsed (rt : runtime) (column : list string) (xs : list float) :
  Forall2 (λ s x, parse_money rt s = Ok (VFloat x)) column xs →
  sum_column rt column = py_sum (VFloat <$> xs).
Proof.
  intros H. unfold sum_column, py_sum. generalize (Ok (VInt 0) : res pyval) as acc.
  induction H as [|s x column xs Hs _ IH]; intros acc; simpl; [done|].
  rewrite <- IH. f_equal. destruct acc as [a|e]; simpl; [|done].
  unfold_M. by rewrite Hs.
Qed.

Lemma py_sum_floats (x : float) (xs : list float) :
  ∃ t, py_sum (VFloat <$> (x :: xs)) = Ok (VFloat t).
Proof.
  assert (∀ acc : float,
            ∃ t, foldl (λ acc v, res_bind acc (λ a, py_add a v))
                   (Ok (VFloat acc)) (VFloat <$> xs) = Ok (VFloat t)) as Hfold.
  { induction xs as [|y xs IH]; intros acc.
    - eexists. reflexivity.
    - exact (IH (PrimFloat.add acc y)). }
  unfold py_sum. rewrite fmap_cons. cbn [foldl].
  change (res_bind (Ok (VInt 0)) (λ a, py_add a (VFloat x)))
    with (Ok (VFloat (PrimFloat.add 0%float x)) : res pyval).
  apply Hfold.
Qed.

(** C4 (as the code has it): whatever the selected filters, when the
    filtered set of rows is not empty (and its money columns are texts that
    [float] reads back) the statistics panel shows as "Net PnL" the total
    closed PnL of the filtered rows minus their total fees, after the two
    totals; when the filtered set is empty the panel shows nothing. *)
Theorem net_pnl_of_filtered_rows (rt : runtime) (filter_symbol filter_side : string)
    (df_trades : list trade_row) (w : world) :
  let filtered_df := apply_filters filter_symbol filter_side df_trades in
  (filtered_df ≠ [] →
   Forall (row_parses rt) filtered_df →
   shows_net_pnl rt filtered_df w ∧
   ∃ total_closed total_fees : float,
     sum_column rt (map row_ClosedPnL filtered_df) = Ok (VFloat total_closed) ∧
     sum_column rt (map row_Fee filtered_df) = Ok (VFloat total_fees) ∧
     trade_statistics rt filtered_df w
     = (Ok (),
        show (StMetric "Net PnL"
                (VStr ("$" +:+ format_fixed true 2
                                 (PrimFloat.sub total_closed total_fees))))
          (show (StMetric "Total Fees" (VStr ("$" +:+ format_fixed true 4 total_fees)))
             (show (StMetric "Total Closed PnL"
                      (VStr ("$" +:+ format_fixed true 2 total_closed))) w)))) ∧
  (filtered_df = [] → trade_statistics rt filtered_df w = (Ok (), w)).
Proof.
  intros filtered_df. split; [|by intros ->].
  intros Hne Hparse.
  destruct (row_values_exist rt filtered_df Hparse) as (cs & fs & Hc & Hf).
  assert (sum_column rt (map row_ClosedPnL filtered_df) = py_sum (VFloat <$> cs)) as Ec.
  { apply sum_column_parsed. by apply Forall2_fmap_l. }
  assert (sum_column rt (map row_Fee filtered_df) = py_sum (VFloat <$> fs)) as Ef.
  { apply sum_column_parsed. by apply Forall2_fmap_l. }
  destruct filtered_df as [|r rows]; [done|].
  destruct cs as [|c cs]; [by apply Forall2_nil_inv_r in Hc|].
  destruct fs as [|f fs]; [by apply Forall2_nil_inv_r in Hf|].
  destruct (py_sum_floats c cs) as [tc Htc].
  destruct (py_sum_floats f fs) as [tf Htf].
  rewrite Htc in Ec. rewrite Htf in Ef.
  assert (trade_statistics rt (r :: rows) w
          = (Ok (),
             show (StMetric "Net PnL"
                     (VStr ("$" +:+ format_fixed true 2 (PrimFloat.sub tc tf))))
               (show (StMetric "Total Fees" (VStr ("$" +:+ format_fixed true 4 tf)))
                  (show (StMetric "Total Closed PnL"
                           (VStr ("$" +:+ format_fixed true 2 tc))) w)))) as Hrun.
  { unfold trade_statistics. simpl length. simpl Nat.ltb. cbv iota.
    unfold_M. rewrite Ec, Ef. reflexivity. }
  split; [|eauto 6].
  exists (c :: cs), (f :: fs), (VFloat tc), (VFloat tf),
    (VFloat (PrimFloat.sub tc tf)), (format_fixed true 2 (PrimFloat.sub tc tf)).
  repeat split; try done.
  erewrite shown_app.
  2:{ unfold after. rewrite Hrun. simpl. rewrite <- !app_assoc. reflexivity. }
  set_solver.
Qed.

Example sample_rows :
  run (mapM (trade_to_row Sample.host) [Sample.btc_buy; Sample.eth_sell])
    {| ui := []; net := []; ticks := 1 |}
  = Ok Sample.rows.
Proof. vm_compute. reflexivity. Qed.

Lemma net_pnl_of_filtered_rows_witness :
  shows_net_pnl Sample.host (apply_filters "All" "SELL" Sample.rows) world0.
Proof.
  refine (proj1 (proj1 (net_pnl_of_filtered_rows Sample.host "All" "SELL"
                          Sample.rows world0) _ _)).
  - vm_compute. discriminate.
  - vm_compute. repeat constructor.
Defined.

(** C4 as stated fails on the empty filtered set: with the BTC symbol and
    the SELL side selected no sample row remains, the table is empty and no
    Net PnL is shown (the claim has it equal to 0). *)
Lemma net_pnl_empty_counterexample :
  apply_filters "BTC/USDC:USDC" "SELL" Sample.rows = [] ∧
  ¬ shows_net_pnl Sample.host (apply_filters "BTC/USDC:USDC" "SELL" Sample.rows) world0 ∧
  shown (trades_section Sample.host Sample.connected 2 "BTC/USDC:USDC" "SELL") world0
  = [StHeader "📜 Trade History"; StMetric "Total Trades" (VInt 2); StDataframe []].
Proof.
  split; [vm_compute; reflexivity|]. split; [|vm_compute; reflexivity].
  intros (cs & fs & tc & tf & net & amount & _ & _ & _ & _ & _ & Hin).
  assert (shown (trade_statistics Sample.host
                   (apply_filters "BTC/USDC:USDC" "SELL" Sample.rows)) world0 = [])
    as Hnone by (vm_compute; reflexivity).
  rewrite Hnone in Hin. by apply elem_of_nil in Hin.
Qed.

(** * Further properties of the code *)

(** ** The client boundary *)

Lemma get_account_balance_run (cfg : config) (gw : gateway) (w : world) :
  get_account_balance {| self_config := cfg; self_client := Some gw |} w
  = match fetch_balance gw with
    | Ok b => (Ok (Some b), {| ui := ui w; net := net w ++ [FetchBalance]; ticks := ticks w |})
    | Raise e =>
        (Ok None,
         {| ui := ui w ++ [StError ("Error fetching balance: " +:+ exc_msg e)];
            net := net w ++ [FetchBalance]; ticks := ticks w |})
    end.
Proof.
  unfold get_account_balance; simpl. unfold_M.
  destruct (fetch_balance gw); done.
Qed.

Lemma get_open_positions_run (cfg : config) (gw : gateway) (w : world) :
  get_open_positions {| self_config := cfg; self_client := Some gw |} w
  = match fetch_positions gw with
    | Ok raw =>
        (Ok (open_positions raw),
         {| ui := ui w; net := net w ++ [FetchPositions]; ticks := ticks w |})
    | Raise e =>
        (Ok [],
         {| ui := ui w ++ [StError ("Error fetching positions: " +:+ exc_msg e)];
            net := net w ++ [FetchPositions]; ticks := ticks w |})
    end.
Proof.
  unfold get_open_positions; simpl. unfold_M.
  destruct (fetch_positions gw) as [raw|e]; simpl; [|done].
  do 2 f_equal. apply list_filter_iff. intros pos. apply dict_get_contracts_zero.
Qed.


(** X2: when [fetch_balance] raises, [get_account_balance] makes the one
    remote call, shows "Error fetching balance: <message>" and returns
    [None]; the balance section then shows, after its header, that error
    followed by the warning "Unable to fetch account balance". *)
Theorem balance_fetch_failure (cfg : config) (gw : gateway) (e : exc) (w : world) :
  fetch_balance gw = Raise e →
  let self := {| self_config := cfg; self_client := Some gw |} in
  get_account_balance self w
  = (Ok None,
     {| ui := ui w ++ [StError ("Error fetching balance: " +:+ exc_msg e)];
        net := net w ++ [FetchBalance]; ticks := ticks w |}) ∧
  run (balance_section self) w = Ok () ∧
  shown (balance_section self) w
  = [StHeader "💰 Account Balance";
     StError ("Error fetching balance: " +:+ exc_msg e);
     StWarning "Unable to fetch account balance"].
Proof.
  intros He self. unfold self.
  assert (∀ w', get_account_balance {| self_config := cfg; self_client := Some gw |} w'
                = (Ok None,
                   {| ui := ui w' ++ [StError ("Error fetching balance: " +:+ exc_msg e)];
                      net := net w' ++ [FetchBalance]; ticks := ticks w' |})) as Hrun.
  { intros w'. by rewrite get_account_balance_run, He. }
  split; [apply Hrun|].
  assert (balance_section {| self_config := cfg; self_client := Some gw |} w
          = (Ok (),
             {| ui := ui w ++ [StHeader "💰 Account Balance";
                               StError ("Error fetching balance: " +:+ exc_msg e);
                               StWarning "Unable to fetch account balance"];
                net := net w ++ [FetchBalance]; ticks := ticks w |})) as Hsec.
  { unfold balance_section. unfold_M. rewrite Hrun. simpl. unfold st. simpl.
    by rewrite <- !app_assoc. }
  split; [unfold run; by rewrite Hsec|].
  apply shown_app. unfold after. by rewrite Hsec.
Qed.

(** X3: when [fetch_positions] raises, [get_open_positions] shows "Error
    fetching positions: <message>" and returns the empty list, and the
    positions section ends with the notice "No open positions". *)
Theorem positions_fetch_failure (cfg : config) (gw : gateway) (e : exc) (w : world) :
  fetch_positions gw = Raise e →
  let self := {| self_config := cfg; self_client := Some gw |} in
  get_open_positions self w
  = (Ok [],
     {| ui := ui w ++ [StError ("Error fetching positions: " +:+ exc_msg e)];
        net := net w ++ [FetchPositions]; ticks := ticks w |}) ∧
  run (positions_section self) w = Ok () ∧
  shown (positions_section self) w
  = [StHeader "📈 Open Positions";
     StError ("Error fetching positions: " +:+ exc_msg e);
     StInfo "No open positions"].
Proof.
  intros He self. unfold self.
  assert (∀ w', get_open_positions {| self_config := cfg; self_client := Some gw |} w'
                = (Ok [],
                   {| ui := ui w' ++ [StError ("Error fetching positions: " +:+ exc_msg e)];
                      net := net w' ++ [FetchPositions]; ticks := ticks w' |})) as Hrun.
  { intros w'. by rewrite get_open_positions_run, He. }
  split; [apply Hrun|].
  assert (positions_section {| self_config := cfg; self_client := Some gw |} w
          = (Ok (),
             {| ui := ui w ++ [StHeader "📈 Open Positions";
                               StError ("Error fetching positions: " +:+ exc_msg e);
                               StInfo "No open positions"];
                net := net w ++ [FetchPositions]; ticks := ticks w |})) as Hsec.
  { unfold positions_section. unfold_M. rewrite Hrun. simpl. unfold st. simpl.
    by rewrite <- !app_assoc. }
  split; [unfold run; by rewrite Hsec|].
  apply shown_app. unfold after. by rewrite Hsec.
Qed.

(** ** Trade history: failures *)

Lemma fetched_all_failed (gw : gateway) (since : Z) (syms : list string) :
  (∀ symbol, symbol ∈ syms → ∃ e, fetch_my_trades gw symbol since = Raise e) →
  fetched gw since syms = [].
Proof.
  unfold fetched. induction syms as [|symbol syms IH]; intros Hall; simpl; [done|].
  destruct (Hall symbol) as [e ->]; [set_solver|]. simpl. apply IH.
  intros s Hs. apply Hall. set_solver.
Qed.

(** X4: a per-symbol fetch that raises is skipped without a trace: the fetch
    loop never shows anything, whatever the gateway does.  When all five
    fetches raise (and the cutoff was computed), [get_trade_history] returns
    the empty list with no error shown, and the trade section shows the same
    "No trades in the last N days" notice as for an account without trades. *)
Theorem failed_symbol_fetches_are_silent (rt : runtime) (cfg : config) (gw : gateway)
    (days since : Z) (filter_symbol filter_side : string) (w : world) :
  (∀ syms acc w', ui (after (fetch_symbols gw since syms acc) w') = ui w') ∧
  (cutoff_of rt (clock rt (ticks w)) days = Ok since →
   (∀ symbol, symbol ∈ symbols → ∃ e, fetch_my_trades gw symbol since = Raise e) →
   let self := {| self_config := cfg; self_client := Some gw |} in
   get_trade_history rt self days w = (Ok [], fetched_world since w) ∧
   shown (trades_section rt self days filter_symbol filter_side) w
   = [StHeader "📜 Trade History";
      StInfo ("No trades in the last " +:+ str_of_Z days +:+ " days")]).
Proof.
  split.
  { intros syms acc w'. unfold after. by rewrite fetch_symbols_run. }
  intros Hcut Hfail self. unfold self.
  assert (∀ w', cutoff_of rt (clock rt (ticks w')) days = Ok since →
                get_trade_history rt {| self_config := cfg; self_client := Some gw |} days w'
                = (Ok [], fetched_world since w')) as Hrun.
  { intros w' Hc. rewrite (get_trade_history_run rt cfg gw days since w' Hc).
    by rewrite (fetched_all_failed gw since symbols Hfail). }
  split; [by apply Hrun|].
  apply shown_app. unfold after, trades_section. unfold_M.
  rewrite Hrun by done. simpl. unfold st. simpl. by rewrite <- app_assoc.
Qed.

Lemma failed_symbol_fetches_are_silent_witness :
  get_trade_history Sample.host Cases.down 2 world0
  = (Ok [], fetched_world 1762017200000 world0).
Proof.
  refine (proj1 (proj2 (failed_symbol_fetches_are_silent Sample.host Sample.cfg
                          Cases.gw_down 2 1762017200000 "All" "All" world0) _ _)).
  - vm_compute. reflexivity.
  - intros symbol _. eexists. reflexivity.
Defined.

Lemma py_lt_none_l (v : pyval) : ∃ e, py_lt VNone v = Raise e.
Proof. unfold py_lt. simpl. eauto. Qed.

Lemma py_lt_none_r (v : pyval) : ∃ e, py_lt v VNone = Raise e.
Proof. unfold py_lt. destruct v; simpl; eauto. Qed.

Lemma sort_key_none (x : pydict) :
  x !! "timestamp" = Some VNone → sort_key x = VNone.
Proof. intros H. unfold sort_key, dict_get. by rewrite H. Qed.

Lemma insert_desc_length (x : pydict) (l l' : list pydict) :
  insert_desc x l = Ok l' → length l' = S (length l).
Proof.
  revert l'. induction l as [|y l IH]; intros l'; simpl.
  - by intros [= <-].
  - destruct (py_lt (sort_key x) (sort_key y)) as [[]|]; simpl; [| |done].
    + destruct (insert_desc x l) as [l''|]; simpl; [|done].
      intros [= <-]. simpl. by rewrite (IH l'').
    + by intros [= <-].
Qed.

Lemma sort_desc_length (l l' : list pydict) :
  sort_desc l = Ok l' → length l' = length l.
Proof.
  revert l'. induction l as [|x l IH]; intros l'; simpl.
  - by intros [= <-].
  - destruct (sort_desc l) as [s|]; simpl; [|done].
    intros H. apply insert_desc_length in H. by rewrite H, (IH s).
Qed.

Lemma sort_desc_none (l : list pydict) :
  (2 ≤ length l)%nat →
  (∃ x, x ∈ l ∧ x !! "timestamp" = Some VNone) →
  ∃ e, sort_desc l = Raise e.
Proof.
  induction l as [|x l IH]; intros Hlen (b & Hb & Hnone); [simpl in Hlen; lia|].
  simpl. destruct (sort_desc l) as [s|e] eqn:Es; simpl; [|eauto].
  pose proof (sort_desc_length _ _ Es) as Hs. simpl in Hlen.
  destruct s as [|y s]; [simpl in Hs; lia|]. simpl.
  apply elem_of_cons in Hb as [-> | Hb].
  - rewrite (sort_key_none _ Hnone). destruct (py_lt_none_l (sort_key y)) as [e ->].
    simpl. eauto.
  - destruct l as [|z [|z' l]]; [simpl in Hlen; lia| |].
    + apply list_elem_of_singleton in Hb as ->. simpl in Es. injection Es as <- <-.
      rewrite (sort_key_none _ Hnone). destruct (py_lt_none_r (sort_key x)) as [e ->].
      simpl. eauto.
    + destruct IH as [e He]; [simpl; lia | eauto |]. congruence.
Qed.

(** X5: one fetched trade whose timestamp is present but [None] is enough,
    as soon as at least two trades were fetched, for the sort to raise:
    [get_trade_history] then shows "Error fetching trade history: ..." and
    returns the empty list, so every fetched trade is lost. *)
Theorem none_timestamp_drops_history (rt : runtime) (cfg : config) (gw : gateway)
    (days since : Z) (w : world) :
  cutoff_of rt (clock rt (ticks w)) days = Ok since →
  (2 ≤ length (fetched gw since symbols))%nat →
  (∃ x, x ∈ fetched gw since symbols ∧ x !! "timestamp" = Some VNone) →
  ∃ e,
    get_trade_history rt {| self_config := cfg; self_client := Some gw |} days w
    = (Ok [],
       show (StError ("Error fetching trade history: " +:+ exc_msg e))
         (fetched_world since w)).
Proof.
  intros Hcut Hlen Hnone. destruct (sort_desc_none _ Hlen Hnone) as [e He].
  exists e. by rewrite (get_trade_history_run rt cfg gw days since w Hcut), He.
Qed.

Lemma none_timestamp_drops_history_witness :
  ∃ e, get_trade_history Sample.host Cases.untimed 2 world0
       = (Ok [],
          show (StError ("Error fetching trade history: " +:+ exc_msg e))
            (fetched_world 1762017200000 world0)).
Proof.
  apply (none_timestamp_drops_history Sample.host Sample.cfg Cases.gw_untimed 2
           1762017200000 world0).
  - vm_compute. reflexivity.
  - vm_compute. lia.
  - exists Cases.btc_untimed. split; [|vm_compute; reflexivity].
    change (fetched Cases.gw_untimed 1762017200000 symbols)
      with [Cases.btc_untimed; Sample.eth_sell]. set_solver.
Defined.

(** X6: when the cutoff cannot be computed (the date arithmetic or the
    conversion raises), [get_trade_history] issues no fetch at all: it shows
    "Error fetching trade history: <message>" and returns the empty list. *)
Theorem cutoff_failure_no_fetch (rt : runtime) (cfg : config) (gw : gateway)
    (days : Z) (e : exc) (w : world) :
  cutoff_of rt (clock rt (ticks w)) days = Raise e →
  get_trade_history rt {| self_config := cfg; self_client := Some gw |} days w
  = (Ok [],
     {| ui := ui w ++ [StError ("Error fetching trade history: " +:+ exc_msg e)];
        net := net w; ticks := S (ticks w) |}).
Proof.
  intros Hcut. unfold get_trade_history; simpl. unfold try_except.
  unfold mbind, M_bind, bind at 1. rewrite since_cutoff_run, Hcut. reflexivity.
Qed.

Lemma cutoff_failure_no_fetch_witness :
  get_trade_history Cases.host_overflow
    {| self_config := Sample.cfg; self_client := Some Sample.gw |} 2 world0
  = (Ok [],
     {| ui := [StError "Error fetching trade history: date value out of range"];
        net := []; ticks := 1 |}).
Proof.
  exact (cutoff_failure_no_fetch Cases.host_overflow Sample.cfg Sample.gw 2
           (OverflowError "date value out of range") world0 eq_refl).
Defined.

(** X7: a list of trades with integer timestamps that is already in
    newest-first order is returned unchanged by the sort; so sorting the
    result of a sort changes nothing. *)
Theorem sorted_history_unchanged (l : list pydict) :
  Forall int_timestamp l →
  (StronglySorted newest_first l → sort_desc l = Ok l) ∧
  (∃ l', sort_desc l = Ok l' ∧ sort_desc l' = Ok l').
Proof.
  assert (∀ l, Forall int_timestamp l → StronglySorted newest_first l →
               sort_desc l = Ok l) as Hid.
  { clear l. induction l as [|x l IH]; intros Hint Hs; [done|].
    apply Forall_cons in Hint as [Hx Hl].
    apply StronglySorted_inv in Hs as [Hs Hall].
    simpl. rewrite (IH Hl Hs). simpl.
    destruct l as [|y l]; [done|]. simpl.
    apply Forall_cons in Hl as [Hy _]. apply Forall_cons in Hall as [Hxy _].
    rewrite (sort_key_int x Hx), (sort_key_int y Hy), py_lt_int. simpl.
    unfold newest_first in Hxy.
    destruct (Z.ltb_spec (trade_ts x) (trade_ts y)); [lia|done]. }
  intros Hint. split; [by apply Hid|].
  destruct (sort_desc_ok l Hint) as (l' & E & Hp & Hs & _).
  exists l'. split; [done|]. apply Hid; [by rewrite Hp | done].
Qed.

Lemma sorted_history_unchanged_witness :
  sort_desc [Sample.btc_buy; Sample.eth_sell] = Ok [Sample.btc_buy; Sample.eth_sell].
Proof.
  refine (proj1 (sorted_history_unchanged [Sample.btc_buy; Sample.eth_sell] _) _).
  - repeat constructor; vm_compute; eauto.
  - repeat constructor; vm_compute; discriminate.
Defined.



(** ** Configuration *)

Example config_error_text_length : String.length config_error_text = 493%nat.
Proof. vm_compute. reflexivity. Qed.

(** X9: when the secrets section is found, [get_config] returns without
    stopping the script and without showing anything, and it does not
    validate the credentials: an absent wallet address or private key is
    passed on as [None]; [testnet] defaults to [False] and the lookback to
    2 days. *)
Theorem get_config_secrets_unvalidated (env : environment) (d : pydict) (w : world) :
  secrets env = SecretsFound (VDict d) →
  ∃ cfg,
    get_config env w = (Ok cfg, w) ∧
    wallet_address cfg = default VNone (d !! "wallet_address") ∧
    private_key cfg = default VNone (d !! "private_key") ∧
    testnet cfg = default (VBool false) (d !! "testnet") ∧
    trade_history_days cfg = default (VInt 2) (d !! "trade_history_days") ∧
    (d !! "wallet_address" = None → wallet_address cfg = VNone) ∧
    (d !! "private_key" = None → private_key cfg = VNone).
Proof.
  intros Hs. unfold get_config. rewrite Hs. eexists. split; [reflexivity|].
  simpl. unfold dict_get. repeat split; by intros ->.
Qed.

Lemma get_config_secrets_unvalidated_witness :
  ∃ cfg, get_config Cases.env_secrets world0 = (Ok cfg, world0) ∧
         wallet_address cfg = VNone ∧ testnet cfg = VBool true ∧
         trade_history_days cfg = VInt 2.
Proof.
  destruct (get_config_secrets_unvalidated Cases.env_secrets
              {[ "private_key" := VStr "secret"; "testnet" := VBool true ]}
              world0 eq_refl)
    as (cfg & H & Hw & _ & Ht & Hd & _).
  exists cfg. repeat split; [exact H | exact Hw | exact Ht | exact Hd].
Defined.

(** X10: when the secrets section is missing, or is not a mapping, the
    environment variables decide.  If WALLET_ADDRESS or PRIVATE_KEY is unset
    or empty, the configuration error is shown and the script is stopped.
    Otherwise the config holds the two variables, [testnet] is true exactly
    when TESTNET lower-cased is "true" (default "False"), and the lookback is
    [int] of TRADE_HISTORY_DAYS (default "2"); when that [int] raises, the
    exception escapes with nothing shown. *)
Theorem get_config_env_fallback (env : environment) (w : world) :
  (secrets env = SecretsMissing ∨
   ∃ v, secrets env = SecretsFound v ∧ ∀ d, v ≠ VDict d) →
  let wallet := getenv env "WALLET_ADDRESS" in
  let key := getenv env "PRIVATE_KEY" in
  let days_text := default "2" (getenv env "TRADE_HISTORY_DAYS") in
  (env_truthy wallet = false ∨ env_truthy key = false →
   get_config env w = (Raise StopException, show (StError config_error_text) w)) ∧
  (env_truthy wallet = true → env_truthy key = true →
   (∀ n, int_of_str env days_text = Ok n →
         get_config env w
         = (Ok {| wallet_address := env_value wallet;
                  private_key := env_value key;
                  testnet := VBool (String.eqb
                                      (lower (default "False" (getenv env "TESTNET")))
                                      "true");
                  trade_history_days := VInt n |}, w)) ∧
   (∀ e, int_of_str env days_text = Raise e → get_config env w = (Raise e, w))).
Proof.
  intros Hsec wallet key days_text.
  assert (get_config env w = config_from_env env w) as ->.
  { unfold get_config. destruct Hsec as [-> | (v & -> & Hv)]; [done|].
    destruct v; try done. by destruct (Hv d). }
  unfold config_from_env. fold wallet key days_text. split.
  - intros Hmiss.
    assert (negb (env_truthy wallet) || negb (env_truthy key) = true) as ->.
    { destruct Hmiss as [-> | ->]; simpl; [done | by rewrite orb_true_r]. }
    reflexivity.
  - intros Hw Hk. rewrite Hw, Hk. simpl. unfold_M. simpl.
    split; intros x ->; reflexivity.
Qed.

Lemma get_config_env_fallback_witness :
  get_config Cases.env_empty world0
  = (Raise StopException, show (StError config_error_text) world0) ∧
  get_config Cases.env_vars world0
  = (Ok {| wallet_address := VStr "0x1234567890abcdef";
           private_key := VStr "secret";
           testnet := VBool true;
           trade_history_days := VInt 2 |}, world0).
Proof.
  split.
  - refine (proj1 (get_config_env_fallback Cases.env_empty world0 (or_introl eq_refl)) _).
    left. reflexivity.
  - refine (proj1 (proj2 (get_config_env_fallback Cases.env_vars world0
                            (or_introl eq_refl)) eq_refl eq_refl) 2%Z _).
    reflexivity.
Defined.

(** ** Account balance: edge cases *)

Lemma balance_cards_widgets (usdc : pydict) (w : world) :
  ∃ new, ui (after (balance_cards usdc) w) = ui w ++ new ∧ Forall card_or_bar new.
Proof.
  unfold after, balance_cards. unfold_M.
  destruct (py_format_fixed true 2 (dict_get usdc "total" (VInt 0))); simpl;
    [|exists []; by rewrite app_nil_r].
  destruct (py_format_fixed true 2 (dict_get usdc "free" (VInt 0))); simpl;
    [|eexists [_]; split; [reflexivity | by repeat constructor]].
  destruct (py_format_fixed true 2 (dict_get usdc "used" (VInt 0))); simpl;
    [|eexists [_; _]; split; [rewrite <- ?app_assoc; reflexivity | by repeat constructor]].
  destruct (py_gt (dict_get usdc "total" (VInt 0)) (VInt 0)) as [[]|]; simpl;
    [|eexists [_; _; _]; split; [rewrite <- ?app_assoc; reflexivity | by repeat constructor] ..].
  destruct (py_truediv _ _); simpl.
  - eexists [_; _; _; _]. split; [rewrite <- ?app_assoc; reflexivity | by repeat constructor].
  - eexists [_; _; _]. split; [rewrite <- ?app_assoc; reflexivity | by repeat constructor].
Qed.

(** X11: the warning "Unable to fetch account balance" is shown, alone,
    when there is no balance or the balance has no 'USDC' entry.  When the
    entry exists the warning is never shown: an entry that is not a
    dictionary shows nothing at all, and a dictionary shows only metric cards
    and possibly the usage bar (even if rendering raises midway). *)
Theorem balance_warning_cases (balance : option pydict) (w : world) :
  (balance = None ∨ (∃ b, balance = Some b ∧ b !! "USDC" = None) →
   render_balance balance w
   = (Ok (), show (StWarning "Unable to fetch account balance") w)) ∧
  (∀ b v, balance = Some b → b !! "USDC" = Some v →
          (∀ x, x ∈ shown (render_balance balance) w → card_or_bar x) ∧
          ((∀ d, v ≠ VDict d) → render_balance balance w = (Ok (), w))).
Proof.
  split.
  - intros [-> | (b & -> & Hb)]; [done|].
    unfold render_balance, dict_contains. rewrite Hb.
    rewrite bool_decide_eq_false_2 by (by intros [? ?]).
    by rewrite andb_false_r.
  - intros b v -> Hb.
    assert (py_truthy (VDict b) && dict_contains b "USDC" = true) as Hcond.
    { apply andb_true_iff. split.
      - simpl. apply negb_true_iff, bool_decide_eq_false. intros ->.
        by rewrite lookup_empty in Hb.
      - apply bool_decide_eq_true. by rewrite Hb. }
    assert (render_balance (Some b) w
            = match v with VDict d => balance_cards d w | _ => (Ok (), w) end) as Hrun.
    { unfold render_balance. rewrite Hcond. unfold dict_item. rewrite Hb.
      unfold_M. by destruct v. }
    split.
    + destruct v as [| | | | |d];
        try (unfold shown, after; rewrite Hrun; simpl;
             rewrite drop_all; intros x Hx; by apply elem_of_nil in Hx).
      destruct (balance_cards_widgets d w) as (new & Hui & Hall).
      assert (shown (render_balance (Some b)) w = new) as ->.
      { apply shown_app. unfold after in *. by rewrite Hrun. }
      by apply Forall_forall.
    + intros Hv. rewrite Hrun. destruct v; try done. by destruct (Hv d).
Qed.

Lemma balance_warning_cases_witness :
  render_balance (Some {[ "BTC" := VDict ∅ ]}) world0
  = (Ok (), show (StWarning "Unable to fetch account balance") world0) ∧
  render_balance (Some {[ "USDC" := VFloat 1000 ]}) world0 = (Ok (), world0).
Proof.
  split.
  - refine (proj1 (balance_warning_cases (Some {[ "BTC" := VDict ∅ ]}) world0) _).
    right. eexists. split; reflexivity.
  - refine (proj2 (proj2 (balance_warning_cases (Some {[ "USDC" := VFloat 1000 ]}) world0)
                     {[ "USDC" := VFloat 1000 ]} (VFloat 1000) eq_refl eq_refl) _).
    discriminate.
Defined.

Lemma render_balance_cards (b usdc : pydict) (w : world) :
  b !! "USDC" = Some (VDict usdc) →
  render_balance (Some b) w = balance_cards usdc w.
Proof.
  intros Hb. unfold render_balance.
  assert (py_truthy (VDict b) && dict_contains b "USDC" = true) as ->.
  { apply andb_true_iff. split.
    - simpl. apply negb_true_iff, bool_decide_eq_false. intros ->.
      by rewrite lookup_empty in Hb.
    - apply bool_decide_eq_true. by rewrite Hb. }
  unfold dict_item. rewrite Hb. by unfold_M.
Qed.

(** X12: when the USDC entry has no 'total' (and 'free' and 'used' are
    floats or missing), the total is shown as "$0.00" and no usage bar is
    shown, whatever the used margin is. *)
Theorem balance_without_total (b usdc : pydict) (w : world) :
  b !! "USDC" = Some (VDict usdc) →
  usdc !! "total" = None →
  float_field "free" usdc →
  float_field "used" usdc →
  ∃ s_free s_used,
    py_format_fixed true 2 (dict_get usdc "free" (VInt 0)) = Ok s_free ∧
    py_format_fixed true 2 (dict_get usdc "used" (VInt 0)) = Ok s_used ∧
    render_balance (Some b) w
    = (Ok (),
       {| ui := ui w ++ [StMetric "Total Balance" (VStr "$0.00");
                         StMetric "Free Balance" (VStr ("$" +:+ s_free));
                         StMetric "Used Margin" (VStr ("$" +:+ s_used))];
          net := net w; ticks := ticks w |}).
Proof.
  intros Hb Ht Hf Hu.
  destruct (amount_like_format _ (amount_like_field "free" usdc Hf)) as [s_free Ef].
  destruct (amount_like_format _ (amount_like_field "used" usdc Hu)) as [s_used Eu].
  exists s_free, s_used. split; [done|]. split; [done|].
  assert (dict_get usdc "total" (VInt 0) = VInt 0) as Et
    by (unfold dict_get; by rewrite Ht).
  rewrite (render_balance_cards b usdc w Hb). unfold balance_cards.
  rewrite Et, Ef, Eu.
  change (py_format_fixed true 2 (VInt 0)) with (Ok "0.00" : res string).
  change (py_gt (VInt 0) (VInt 0)) with (Ok false : res bool).
  unfold_M. simpl. by rewrite <- !app_assoc.
Qed.

Lemma balance_without_total_witness :
  render_balance (Some {[ "USDC" := VDict {[ "used" := VFloat 400 ]} ]}) world0
  = (Ok (),
     {| ui := [StMetric "Total Balance" (VStr "$0.00");
               StMetric "Free Balance" (VStr "$0.00");
               StMetric "Used Margin" (VStr "$400.00")];
        net := []; ticks := 0 |}).
Proof.
  destruct (balance_without_total {[ "USDC" := VDict {[ "used" := VFloat 400 ]} ]}
              {[ "used" := VFloat 400 ]} world0)
    as (s_free & s_used & Ef & Eu & H).
  - reflexivity.
  - reflexivity.
  - vm_compute. exact I.
  - vm_compute. eauto.
  - vm_compute in Ef, Eu. injection Ef as <-. injection Eu as <-. exact H.
Defined.

(** X13: when the 'total' of the USDC entry is [None], the balance section
    raises before any card is shown. *)
Theorem balance_none_total_raises (b usdc : pydict) (w : world) :
  b !! "USDC" = Some (VDict usdc) →
  usdc !! "total" = Some VNone →
  ∃ e, render_balance (Some b) w = (Raise e, w).
Proof.
  intros Hb Ht. rewrite (render_balance_cards b usdc w Hb).
  unfold balance_cards, dict_get. rewrite Ht. simpl. unfold_M. simpl. eauto.
Qed.

Lemma balance_none_total_raises_witness :
  ∃ e, render_balance
         (Some {[ "USDC" := VDict {[ "total" := VNone; "used" := VFloat 400 ]} ]})
         world0 = (Raise e, world0).
Proof.
  apply (balance_none_total_raises _ {[ "total" := VNone; "used" := VFloat 400 ]});
    reflexivity.
Defined.

(** ** The trade filters *)

Lemma py_eq_str_true (v : pyval) (s : string) : py_eq_str v s = true ↔ v = VStr s.
Proof.
  destruct v; simpl; try (split; [discriminate | by intros [=]]).
  rewrite String.eqb_eq. split; [by intros -> | by intros [= ->]].
Qed.

(** X14: the filtered table is exactly the rows that pass both filters, in
    their original order, where a filter set to "All" lets every row pass
    and any other value keeps the rows whose symbol, respectively side,
    equals it.  So "All"/"All" returns the full table, the result is a
    sub-list of the table, and filtering a filtered table again changes
    nothing. *)
Theorem apply_filters_selects (filter_symbol filter_side : string)
    (df_trades : list trade_row) :
  apply_filters filter_symbol filter_side df_trades
  = filter (row_selected filter_symbol filter_side) df_trades ∧
  apply_filters "All" "All" df_trades = df_trades ∧
  apply_filters filter_symbol filter_side df_trades `sublist_of` df_trades ∧
  apply_filters filter_symbol filter_side
    (apply_filters filter_symbol filter_side df_trades)
  = apply_filters filter_symbol filter_side df_trades.
Proof.
  assert (∀ fs fd df,
            apply_filters fs fd df = filter (row_selected fs fd) df) as Hsel.
  { intros fs fd df. unfold apply_filters, row_selected.
    destruct (String.eqb_spec fs "All") as [Hs|Hs];
      destruct (String.eqb_spec fd "All") as [Hd|Hd]; simpl.
    - symmetry. induction df as [|r df IH]; [done|].
      rewrite filter_cons_True by tauto. by rewrite IH.
    - apply list_filter_iff. intros r. rewrite String.eqb_eq. tauto.
    - apply list_filter_iff. intros r. rewrite py_eq_str_true. tauto.
    - rewrite list_filter_filter. apply list_filter_iff. intros r.
      rewrite String.eqb_eq, py_eq_str_true. tauto. }
  split; [apply Hsel|]. split; [done|]. split.
  - rewrite Hsel. apply sublist_filter.
  - rewrite !Hsel, list_filter_filter. apply list_filter_iff. tauto.
Qed.

(** ** The trade table *)

Lemma trade_dt_logs (rt : runtime) (trade : pydict) (w : world) :
  ui (after (trade_dt rt trade) w) = ui w ∧ net (after (trade_dt rt trade) w) = net w.
Proof.
  unfold after, trade_dt.
  destruct (py_truthy _); [|done]. unfold_M.
  destruct (py_truediv _ _); simpl; done.
Qed.

Lemma trade_to_row_logs (rt : runtime) (trade : pydict) (w : world) :
  ui (after (trade_to_row rt trade) w) = ui w ∧
  net (after (trade_to_row rt trade) w) = net w.
Proof.
  pose proof (trade_dt_logs rt trade w) as Hdt.
  unfold after in *. unfold trade_to_row. unfold_M.
  destruct (closed_pnl_of rt trade); [|done].
  destruct (order_id_of rt trade); [|done].
  destruct (trade_dt rt trade w) as [[dt|] w1]; [|done]. simpl in Hdt.
  destruct (py_upper _); [|done].
  repeat match goal with
         | |- context [py_format_fixed ?g ?p ?v] =>
             destruct (py_format_fixed g p v); [|done]
         end.
  done.
Qed.

Lemma mapM_logs {A B} (f : A → M B) (l : list A) :
  (∀ a w, ui (after (f a) w) = ui w ∧ net (after (f a) w) = net w) →
  ∀ w, ui (after (mapM f l) w) = ui w ∧ net (after (mapM f l) w) = net w.
Proof.
  intros Hf. unfold after in *. induction l as [|a l IH]; intros w; simpl; [done|].
  unfold_M. specialize (Hf a w). destruct (f a w) as [[b|e] w1]; simpl in *; [|done].
  specialize (IH w1). destruct (mapM f l w1) as [[bs|e] w2]; simpl in *;
    destruct Hf, IH; split; congruence.
Qed.

Lemma mapM_raise {A B} (f : A → M B) (l : list A) (a : A) :
  a ∈ l → (∀ w, ∃ e, run (f a) w = Raise e) → ∀ w, ∃ e, run (mapM f l) w = Raise e.
Proof.
  intros Hin Ha. unfold run in *. induction l as [|x l IH]; intros w.
  - by apply elem_of_nil in Hin.
  - simpl. unfold_M. apply elem_of_cons in Hin as [<- | Hin].
    + destruct (Ha w) as [e He]. destruct (f a w) as [[b|e'] w1]; simpl in *; eauto.
      discriminate.
    + destruct (f x w) as [[b|e'] w1]; simpl; eauto.
      destruct (IH Hin w1) as [e He].
      destruct (mapM f l w1) as [[bs|e''] w2]; simpl in *; eauto. discriminate.
Qed.

Lemma mapM_inv {A B} (f : A → M B) (a : A) (l : list A) (w w' : world) (rs : list B) :
  mapM f (a :: l) w = (Ok rs, w') →
  ∃ b bs w1, f a w = (Ok b, w1) ∧ mapM f l w1 = (Ok bs, w') ∧ rs = b :: bs.
Proof.
  simpl. unfold_M. destruct (f a w) as [[b|e] w1] eqn:Ea; [|done].
  destruct (mapM f l w1) as [[bs|e] w2] eqn:El; [|done].
  intros [= <- <-]. exists b, bs, w1. repeat split. exact El.
Qed.

Lemma trade_to_row_fields (rt : runtime) (trade : pydict) (w w' : world)
    (row : trade_row) :
  trade_to_row rt trade w = (Ok row, w') → row_of_trade rt trade row.
Proof.
  unfold trade_to_row, row_of_trade. unfold_M. intros H.
  destruct (closed_pnl_of rt trade) as [closed_pnl|]; [|done].
  destruct (order_id_of rt trade) as [order_id|]; [|done].
  destruct (trade_dt rt trade w) as [[dt|] w1]; [|done].
  destruct (py_upper _) as [side_up|]; [|done].
  destruct (py_format_fixed false 6 _) as [s_amount|]; [|done].
  destruct (py_format_fixed true 2 (dict_get trade "price" (VInt 0))); [|done].
  destruct (py_format_fixed true 2 (dict_get trade "cost" (VInt 0))); [|done].
  destruct (py_format_fixed false 4 _) as [s_fee|]; [|done].
  injection H as <- <-. simpl. eauto 10.
Qed.

(** X15: when the table rows can be built, there is one row per trade, in
    the order of the trades, each showing its trade's symbol, upper-cased
    side, order identifier, closed PnL, fee and amount; building the rows
    shows nothing and makes no remote call. *)
Theorem rows_follow_trades (rt : runtime) (trades : list pydict) (w w' : world)
    (rows : list trade_row) :
  mapM (trade_to_row rt) trades w = (Ok rows, w') →
  Forall2 (row_of_trade rt) trades rows ∧
  length rows = length trades ∧
  ui w' = ui w ∧ net w' = net w.
Proof.
  intros H.
  assert (Forall2 (row_of_trade rt) trades rows) as HF.
  { revert w rows H. induction trades as [|t trades IH]; intros w rows H.
    - simpl in H. injection H as <- <-. constructor.
    - apply mapM_inv in H as (r & rs & w1 & Hr & Hrs & ->).
      constructor; [by eapply trade_to_row_fields | by eapply IH]. }
  split; [done|]. split; [symmetry; by eapply Forall2_length|].
  pose proof (mapM_logs (trade_to_row rt) trades (trade_to_row_logs rt) w) as Hlog.
  unfold after in Hlog. by rewrite H in Hlog.
Qed.

Lemma rows_follow_trades_witness :
  Forall2 (row_of_trade Sample.host) [Sample.btc_buy; Sample.eth_sell] Sample.rows.
Proof.
  refine (proj1 (rows_follow_trades Sample.host [Sample.btc_buy; Sample.eth_sell]
                   {| ui := []; net := []; ticks := 1 |}
                   {| ui := []; net := []; ticks := 2 |} Sample.rows _)).
  vm_compute. reflexivity.
Defined.

Lemma trade_to_row_sideless (rt : runtime) (trade : pydict) :
  not_str (dict_get trade "side" (VStr "N/A")) →
  ∀ w, ∃ e, run (trade_to_row rt trade) w = Raise e.
Proof.
  intros Hside w. unfold run, trade_to_row. unfold_M.
  destruct (closed_pnl_of rt trade); simpl; [|eauto].
  destruct (order_id_of rt trade); simpl; [|eauto].
  destruct (trade_dt rt trade w) as [[dt|] w1]; simpl; [|eauto].
  destruct (dict_get trade "side" (VStr "N/A")); simpl; eauto. done.
Qed.

(** X16: one trade whose side is not a string ([None], say) makes the
    whole trade section raise: after the "Total Trades" metric nothing is
    shown, neither the table nor the statistics, whatever the filters. *)
Theorem sideless_trade_blocks_table (rt : runtime) (trades : list pydict)
    (days : Z) (filter_symbol filter_side : string) (w : world) :
  (∃ t, t ∈ trades ∧ not_str (dict_get t "side" (VStr "N/A"))) →
  (∃ e, run (render_trades rt trades days filter_symbol filter_side) w = Raise e) ∧
  shown (render_trades rt trades days filter_symbol filter_side) w
  = [StMetric "Total Trades" (VInt (Z.of_nat (length trades)))].
Proof.
  intros (t & Hin & Hside).
  destruct trades as [|t0 trades]; [by apply elem_of_nil in Hin|].
  set (w1 := {| ui := ui w ++ [StMetric "Total Trades"
                                 (VInt (Z.of_nat (length (t0 :: trades))))];
                net := net w; ticks := ticks w |}).
  destruct (mapM_raise (trade_to_row rt) (t0 :: trades) t Hin
              (trade_to_row_sideless rt t Hside) w1) as [e He].
  pose proof (mapM_logs (trade_to_row rt) (t0 :: trades) (trade_to_row_logs rt) w1)
    as [Hui _].
  unfold run, after in *.
  destruct (mapM (trade_to_row rt) (t0 :: trades) w1) as [[rows|e'] w2] eqn:Em;
    simpl in He, Hui; [discriminate|]. injection He as ->.
  assert (render_trades rt (t0 :: trades) days filter_symbol filter_side w
          = (Raise e, w2)) as Hrun.
  { unfold render_trades. unfold mbind, M_bind, bind, st. fold w1. by rewrite Em. }
  split; [exists e; by rewrite Hrun|].
  apply shown_app. unfold after. rewrite Hrun. cbn [snd]. by rewrite Hui.
Qed.

Lemma sideless_trade_blocks_table_witness :
  shown (render_trades Sample.host [Sample.btc_buy; Cases.sol_sideless] 2 "All" "All")
    world0
  = [StMetric "Total Trades" (VInt 2)].
Proof.
  refine (proj2 (sideless_trade_blocks_table Sample.host
                   [Sample.btc_buy; Cases.sol_sideless] 2 "All" "All" world0 _)).
  exists Cases.sol_sideless. split; [set_solver | vm_compute; exact I].
Defined.

(** X17: a trade whose fee is missing or malformed (no 'fee', a 'fee' that
    is not a dictionary, or a fee without 'cost') is shown with the fee
    "$0.0000". *)
Theorem unusable_fee_shows_zero (rt : runtime) (trade : pydict) (w w' : world)
    (row : trade_row) :
  trade_to_row rt trade w = (Ok row, w') →
  fee_unusable trade →
  fee_cost_of trade = VInt 0 ∧ row_Fee row = "$0.0000".
Proof.
  intros H Hfee.
  assert (fee_cost_of trade = VInt 0) as Hcost.
  { unfold fee_unusable in Hfee. unfold fee_cost_of, dict_get.
    destruct (trade !! "fee") as [v|]; simpl; [|done].
    destruct v; try done. simpl. by rewrite Hfee. }
  split; [done|].
  apply trade_to_row_fields in H as (_ & _ & _ & _ & (s & Hs & ->) & _).
  rewrite Hcost in Hs. vm_compute in Hs. by injection Hs as <-.
Qed.

Lemma unusable_fee_shows_zero_witness :
  ∃ row, trade_to_row Sample.host Cases.sol_feeless world0 = (Ok row, world0) ∧
         row_Fee row = "$0.0000".
Proof.
  eexists. split.
  - vm_compute. reflexivity.
  - refine (proj2 (unusable_fee_shows_zero Sample.host Cases.sol_feeless
                     world0 world0 _ _ _)).
    + vm_compute. reflexivity.
    + vm_compute. exact I.
Defined.

(** ** The positions table *)

Lemma positions_data_raise (l : list pydict) (pos : pydict) :
  pos ∈ l → (∃ e, position_to_row pos = Raise e) → ∃ e, positions_data l = Raise e.
Proof.
  intros Hin [e He]. induction l as [|x l IH]; [by apply elem_of_nil in Hin|].
  simpl. apply elem_of_cons in Hin as [<- | Hin].
  - rewrite He. simpl. eauto.
  - destruct (position_to_row x); simpl; [|eauto].
    destruct (IH Hin) as [e' ->]. simpl. eauto.
Qed.

Lemma position_to_row_unknown_size (pos : pydict) :
  pos !! "contracts" = Some VNone → ∃ e, position_to_row pos = Raise e.
Proof.
  intros Hc. unfold position_to_row.
  assert (dict_get pos "contracts" (VInt 0) = VNone) as ->
    by (unfold dict_get; by rewrite Hc).
  destruct (py_upper _); simpl; eauto.
Qed.

(** X18: a raw position whose 'contracts' is [None] (size unknown) is not
    a zero size, so [get_open_positions] keeps it; the positions table then
    cannot be built: [abs(None)] raises. *)
Theorem unknown_size_breaks_table (cfg : config) (gw : gateway) (raw : list pydict)
    (pos : pydict) (w : world) :
  fetch_positions gw = Ok raw →
  pos ∈ raw →
  pos !! "contracts" = Some VNone →
  ∃ positions,
    run (get_open_positions {| self_config := cfg; self_client := Some gw |}) w
      = Ok positions ∧
    pos ∈ positions ∧
    ∃ e, positions_data positions = Raise e.
Proof.
  intros Hraw Hin Hc. exists (open_positions raw).
  assert (pos ∈ open_positions raw) as Hopen.
  { unfold open_positions. apply list_elem_of_filter. split; [|done].
    unfold zero_size. rewrite Hc. simpl. by intros []. }
  split; [|split; [done|]].
  - unfold run. by rewrite get_open_positions_run, Hraw.
  - eapply positions_data_raise; [exact Hopen|].
    by apply position_to_row_unknown_size.
Qed.

Lemma unknown_size_breaks_table_witness :
  ∃ positions,
    run (get_open_positions
           {| self_config := Sample.cfg;
              self_client := Some {| fetch_balance := fetch_balance Sample.gw;
                                     fetch_positions := Ok [Sample.btc_long; Cases.sol_unknown];
                                     fetch_my_trades := fetch_my_trades Sample.gw |} |})
      world0 = Ok positions ∧
    Cases.sol_unknown ∈ positions ∧
    ∃ e, positions_data positions = Raise e.
Proof.
  apply (unknown_size_breaks_table Sample.cfg _ [Sample.btc_long; Cases.sol_unknown]).
  - reflexivity.
  - set_solver.
  - vm_compute. reflexivity.
Defined.

(** X19: when the positions table can be built it has one row per
    position, in order, each showing its position's symbol, its side in
    upper case and the absolute value of its size with six decimals. *)
Theorem rows_follow_positions (positions : list pydict) (rows : list position_row) :
  positions_data positions = Ok rows →
  Forall2 row_of_position positions rows ∧ length rows = length positions.
Proof.
  intros H.
  assert (Forall2 row_of_position positions rows) as HF.
  { revert rows H. induction positions as [|pos positions IH]; intros rows H; simpl in H.
    - injection H as <-. constructor.
    - destruct (position_to_row pos) as [row|] eqn:Er; simpl in H; [|done].
      destruct (positions_data positions) as [rs|]; simpl in H; [|done].
      injection H as <-. constructor; [|by apply IH].
      unfold position_to_row in Er. unfold row_of_position.
      destruct (py_upper _) as [side_up|] eqn:Eup; simpl in Er; [|done].
      destruct (py_abs _) as [size|] eqn:Eabs; simpl in Er; [|done].
      destruct (py_format_fixed false 6 size) as [s_size|] eqn:Esize;
        simpl in Er; [|done].
      repeat match type of Er with
             | context [py_format_fixed ?g ?p ?v] =>
                 destruct (py_format_fixed g p v); simpl in Er; [|done]
             end.
      injection Er as <-. simpl. split; [done|]. split; [done|].
      exists size. by split. }
  split; [done|]. symmetry. by eapply Forall2_length.
Qed.

Lemma rows_follow_positions_witness :
  ∃ rows, positions_data [Sample.btc_long] = Ok rows ∧
          Forall2 row_of_position [Sample.btc_long] rows.
Proof.
  eexists. split.
  - vm_compute. reflexivity.
  - refine (proj1 (rows_follow_positions [Sample.btc_long] _ _)).
    vm_compute. reflexivity.
Defined.

(** ** The page of an unavailable client *)

(** X20: with a client that has no gateway, the three sections run to the
    end without any remote call: the page is the balance warning, the
    notice "No open positions" and the notice "No trades in the last N
    days", each under its header. *)
Theorem unavailable_client_page (rt : runtime) (self : RiskManagementClient)
    (days : Z) (filter_symbol filter_side : string) (w : world) :
  self_client self = None →
  (balance_section self;;
   positions_section self;;
   trades_section rt self days filter_symbol filter_side) w
  = (Ok (),
     {| ui := ui w ++
                [StHeader "💰 Account Balance";
                 StWarning "Unable to fetch account balance";
                 StHeader "📈 Open Positions";
                 StInfo "No open positions";
                 StHeader "📜 Trade History";
                 StInfo ("No trades in the last " +:+ str_of_Z days +:+ " days")];
        net := net w; ticks := ticks w |}).
Proof.
  intros Hnone. destruct self as [cfg c]. simpl in Hnone. subst c.
  unfold balance_section, positions_section, trades_section,
    get_account_balance, get_open_positions, get_trade_history. simpl.
  unfold_M. simpl. unfold st. simpl. by rewrite <- !app_assoc.
Qed.

Lemma unavailable_client_page_witness :
  net (after (balance_section {| self_config := Sample.cfg_no_wallet; self_client := None |};;
              positions_section {| self_config := Sample.cfg_no_wallet; self_client := None |};;
              trades_section Sample.host
                {| self_config := Sample.cfg_no_wallet; self_client := None |}
                2 "All" "All") world0) = [].
Proof.
  unfold after.
  rewrite (unavailable_client_page Sample.host
             {| self_config := Sample.cfg_no_wallet; self_client := None |}
             2 "All" "All" world0 eq_refl).
  reflexivity.
Defined.

(** ** The trade section as a whole *)

Lemma trade_dt_ticks (rt : runtime) (trade : pydict) (w w' : world) (dt : datetime rt) :
  int_timestamp trade →
  trade_dt rt trade w = (Ok dt, w') →
  ticks w' = (ticks w + (if decide (trade_ts trade = 0%Z) then 1 else 0))%nat.
Proof.
  unfold int_timestamp, trade_dt, trade_ts, dict_get.
  destruct (trade !! "timestamp") as [v|]; simpl.
  - intros [z ->]. simpl. destruct (Z.eqb_spec z 0) as [->|Hz]; simpl.
    + unfold now. intros [= _ <-]. simpl. lia.
    + rewrite decide_False by done. unfold_M.
      destruct (py_truediv _ _); simpl; [|done].
      destruct (fromtimestamp rt _); [intros [= _ <-]; lia | done].
  - intros _. unfold now. intros [= _ <-]. simpl. lia.
Qed.

Lemma trade_to_row_ticks (rt : runtime) (trade : pydict) (w w' : world) (row : trade_row) :
  int_timestamp trade →
  trade_to_row rt trade w = (Ok row, w') →
  ticks w' = (ticks w + (if decide (trade_ts trade = 0%Z) then 1 else 0))%nat.
Proof.
  intros Hint H.
  apply trade_to_row_inv in H as (c & o & dt & _ & _ & Hdt & _).
  by eapply trade_dt_ticks.
Qed.

(** X21: building the table reads the clock once for each trade whose
    timestamp is missing or zero and never for the others (integer
    timestamps): the number of clock readings is the number of such trades,
    so two of them are stamped with two successive readings. *)
Theorem clock_reads_of_rows (rt : runtime) (trades : list pydict) (w w' : world)
    (rows : list trade_row) :
  Forall int_timestamp trades →
  mapM (trade_to_row rt) trades w = (Ok rows, w') →
  ticks w' = (ticks w + length (filter (λ t, trade_ts t = 0%Z) trades))%nat.
Proof.
  intros Hint. revert w rows. induction Hint as [|t trades Ht _ IH]; intros w rows H.
  - simpl in H. injection H as _ <-. simpl. lia.
  - apply mapM_inv in H as (r & rs & w1 & Hr & Hrs & ->).
    rewrite (IH _ _ Hrs), (trade_to_row_ticks _ _ _ _ _ Ht Hr), filter_cons.
    destruct (decide (trade_ts t = 0%Z)); simpl; lia.
Qed.

Lemma clock_reads_of_rows_witness :
  ticks {| ui := []; net := []; ticks := 2 |}
  = (ticks {| ui := []; net := []; ticks := 1 |}
     + length (filter (λ t, trade_ts t = 0%Z) [Sample.btc_buy; Sample.eth_sell]))%nat.
Proof.
  apply (clock_reads_of_rows Sample.host [Sample.btc_buy; Sample.eth_sell]
           {| ui := []; net := []; ticks := 1 |}
           {| ui := []; net := []; ticks := 2 |} Sample.rows).
  - repeat constructor; vm_compute; eauto.
  - vm_compute. reflexivity.
Defined.

Lemma trade_statistics_appends (rt : runtime) (rows : list trade_row) (w : world) :
  ∃ rest, ui (after (trade_statistics rt rows) w) = ui w ++ rest ∧ (rows = [] → rest = []).
Proof.
  unfold after, trade_statistics. destruct rows as [|r rows].
  { exists []. simpl. by rewrite app_nil_r. }
  simpl length. simpl Nat.ltb. cbv iota. unfold_M.
  destruct (sum_column rt (map row_ClosedPnL (r :: rows))) as [tc|];
    [|exists []; simpl; by rewrite app_nil_r].
  destruct (sum_column rt (map row_Fee (r :: rows))) as [tf|];
    [|exists []; simpl; by rewrite app_nil_r].
  destruct (py_format_fixed true 2 tc);
    [|exists []; simpl; by rewrite app_nil_r].
  destruct (py_format_fixed true 4 tf);
    [|eexists [_]; simpl; split; [reflexivity | done]].
  destruct (py_sub tc tf) as [net_pnl|];
    [|eexists [_; _]; simpl; split; [rewrite <- ?app_assoc; reflexivity | done]].
  destruct (py_format_fixed true 2 net_pnl).
  - eexists [_; _; _]. simpl. split; [rewrite <- ?app_assoc; reflexivity | done].
  - eexists [_; _]. simpl. split; [rewrite <- ?app_assoc; reflexivity | done].
Qed.

(** X22: when the rows of a non-empty trade list can be built, the trade
    section shows first "Total Trades" with the number of all trades,
    whatever the filters, then the table of the rows that pass the filters,
    then the statistics; when no row passes the filters the table is empty
    and nothing follows it. *)
Theorem trade_section_layout (rt : runtime) (trades : list pydict) (days : Z)
    (filter_symbol filter_side : string) (w w' : world) (rows : list trade_row) :
  trades ≠ [] →
  mapM (trade_to_row rt) trades
    (show (StMetric "Total Trades" (VInt (Z.of_nat (length trades)))) w)
  = (Ok rows, w') →
  ∃ rest,
    shown (render_trades rt trades days filter_symbol filter_side) w
    = StMetric "Total Trades" (VInt (Z.of_nat (length trades)))
      :: StDataframe (apply_filters filter_symbol filter_side rows) :: rest ∧
    (apply_filters filter_symbol filter_side rows = [] → rest = []).
Proof.
  intros Hne Hrows.
  pose proof (rows_follow_trades rt trades _ _ rows Hrows) as (_ & _ & Hui & _).
  set (filtered := apply_filters filter_symbol filter_side rows).
  set (w2 := {| ui := ui w' ++ [StDataframe filtered]; net := net w'; ticks := ticks w' |}).
  destruct (trade_statistics_appends rt filtered w2) as (rest & Hrest & Hempty).
  exists rest. split; [|done].
  apply shown_app. unfold after in *.
  destruct trades as [|t trades]; [done|].
  unfold render_trades. unfold mbind, M_bind, bind. unfold st at 1.
  unfold show in Hrows. rewrite Hrows. unfold st at 1. fold filtered. fold w2.
  rewrite Hrest. unfold w2. simpl. rewrite Hui. unfold show. simpl.
  by rewrite <- !app_assoc.
Qed.

Lemma trade_section_layout_witness :
  ∃ rest,
    shown (render_trades Sample.host [Sample.btc_buy; Sample.eth_sell] 2
             "BTC/USDC:USDC" "SELL") {| ui := []; net := []; ticks := 1 |}
    = StMetric "Total Trades" (VInt 2)
      :: StDataframe (apply_filters "BTC/USDC:USDC" "SELL" Sample.rows) :: rest ∧
    (apply_filters "BTC/USDC:USDC" "SELL" Sample.rows = [] → rest = []).
Proof.
  apply (trade_section_layout Sample.host [Sample.btc_buy; Sample.eth_sell] 2
           "BTC/USDC:USDC" "SELL" {| ui := []; net := []; ticks := 1 |}
           {| ui := [StMetric "Total Trades" (VInt 2)]; net := []; ticks := 2 |}).
  - discriminate.
  - vm_compute. reflexivity.
Defined.

Lemma balance_fetch_failure_witness :
  shown (balance_section Cases.down) world0
  = [StHeader "💰 Account Balance";
     StError "Error fetching balance: timeout";
     StWarning "Unable to fetch account balance"].
Proof.
  exact (proj2 (proj2 (balance_fetch_failure Sample.cfg Cases.gw_down
                         (Exc "NetworkError" "timeout") world0 eq_refl))).
Defined.

Lemma positions_fetch_failure_witness :
  shown (positions_section Cases.down) world0
  = [StHeader "📈 Open Positions";
     StError "Error fetching positions: timeout";
     StInfo "No open positions"].
Proof.
  exact (proj2 (proj2 (positions_fetch_failure Sample.cfg Cases.gw_down
                         (Exc "NetworkError" "timeout") world0 eq_refl))).
Defined.
